(** * The feedback form of react-sentiment-analysis-form

    A shallow embedding of the two form components of the repository,
    [src/components/SentimentAnalysisForm.tsx] (the component mounted by
    [App.tsx], with dark-mode support and an [isFormValid] state) and its
    near-duplicate without them, together with the properties the
    specification states about validation, section visibility, the
    submission state machine and the webhook client. *)

From Stdlib Require Import List NArith ZArith Bool String Ascii Lia.
Import ListNotations.

Local Open Scope N_scope.

(** ** JavaScript strings

    A JavaScript string is a sequence of UTF-16 code units; [length],
    [trim] and the regular-expression classes of the source all work on
    code units. *)

Definition char16 := N.
Definition jsstring := list char16.

(** An ASCII literal of the source as a JavaScript string. *)
Definition lit (s : string) : jsstring :=
  map N_of_ascii (list_ascii_of_string s).

(** The decimal rendering of a number inside a template literal. *)
Fixpoint digits (u : Decimal.uint) : jsstring :=
  match u with
  | Decimal.Nil => []
  | Decimal.D0 r => 48 :: digits r
  | Decimal.D1 r => 49 :: digits r
  | Decimal.D2 r => 50 :: digits r
  | Decimal.D3 r => 51 :: digits r
  | Decimal.D4 r => 52 :: digits r
  | Decimal.D5 r => 53 :: digits r
  | Decimal.D6 r => 54 :: digits r
  | Decimal.D7 r => 55 :: digits r
  | Decimal.D8 r => 56 :: digits r
  | Decimal.D9 r => 57 :: digits r
  end.

Definition number_toString (n : N) : jsstring := digits (N.to_uint n).

(** ECMAScript WhiteSpace and LineTerminator code points: the set removed
    by [String.prototype.trim] and matched by the class [\s]. *)
Definition isWhiteSpace (c : char16) : bool :=
  (c =? 9) || (c =? 10) || (c =? 11) || (c =? 12) || (c =? 13) ||
  (c =? 32) || (c =? 160) || (c =? 5760) ||
  ((8192 <=? c) && (c <=? 8202)) ||
  (c =? 8232) || (c =? 8233) || (c =? 8239) || (c =? 8287) ||
  (c =? 12288) || (c =? 65279).

Fixpoint trimStart (s : jsstring) : jsstring :=
  match s with
  | [] => []
  | c :: r => if isWhiteSpace c then trimStart r else s
  end.

Definition trimEnd (s : jsstring) : jsstring := rev (trimStart (rev s)).

Definition trim (s : jsstring) : jsstring := trimEnd (trimStart s).

(** Truthiness of a string: the empty string is the only falsy one. *)
Definition truthy_string (s : jsstring) : bool :=
  match s with [] => false | _ :: _ => true end.

(** Truthiness of a [number | null] holding an integer. *)
Definition truthy_number (n : option Z) : bool :=
  match n with
  | None => false
  | Some v => negb (v =? 0)%Z
  end.

(** Truthiness of a [string | undefined]. *)
Definition truthy_opt_string (s : option jsstring) : bool :=
  match s with None => false | Some v => truthy_string v end.

(** [a || b] on strings where [a] may be undefined. *)
Definition or_string (a : option jsstring) (b : jsstring) : jsstring :=
  match a with
  | Some v => if truthy_string v then v else b
  | None => b
  end.

(** ** The regular expression of [validateEmail]

    [/^[^\s@]+@[^\s@]+\.[^\s@]+$/] is built from single code units and
    one-or-more repetitions of a class. The matcher is the backtracking
    one of the language: a greedy [+] that gives code units back when the
    rest of the pattern fails, with the rest of the pattern as a
    continuation. *)

Inductive regex : Type :=
| Chr (c : char16)
| ClassPlus (p : char16 -> bool)
| Cat (r1 r2 : regex).

Fixpoint plus_match (p : char16 -> bool) (s : jsstring)
         (k : jsstring -> bool) : bool :=
  match s with
  | [] => false
  | c :: r => p c && (plus_match p r k || k r)
  end.

Fixpoint rmatch (r : regex) (s : jsstring) (k : jsstring -> bool) : bool :=
  match r with
  | Chr c => match s with
             | d :: s' => (d =? c) && k s'
             | [] => false
             end
  | ClassPlus p => plus_match p s k
  | Cat r1 r2 => rmatch r1 s (fun s' => rmatch r2 s' k)
  end.

(** The assertion [$] without the multiline flag: end of input. *)
Definition at_end (s : jsstring) : bool :=
  match s with [] => true | _ :: _ => false end.

(** [re.test(s)] for a pattern anchored with [^] at its start: only a
    match starting at index 0 counts. *)
Definition test_anchored (r : regex) (s : jsstring) : bool :=
  rmatch r s at_end.

(** The class [[^\s@]]. *)
Definition not_space_at (c : char16) : bool :=
  negb (isWhiteSpace c || (c =? 64)).

Definition emailRegex : regex :=
  Cat (ClassPlus not_space_at)
      (Cat (Chr 64)
           (Cat (ClassPlus not_space_at)
                (Cat (Chr 46) (ClassPlus not_space_at)))).

Definition validateEmail (email : jsstring) : bool :=
  test_anchored emailRegex email.

(** ** Data model *)

(** [interface Emoji]; the colour and size fields only feed CSS and are
    left out. *)
Record Emoji : Type := { value : Z; label : jsstring }.

Definition emojis : list Emoji :=
  [ {| value := 1; label := lit "Unsatisfied" |};
    {| value := 2; label := lit "Neutral" |};
    {| value := 3; label := lit "Satisfied" |} ].

Module FeedbackData.
Record t : Type := {
  rating : Z;
  feedback : jsstring;
  name : jsstring;
  email : jsstring;
  timestamp : jsstring
}.
End FeedbackData.

(** [interface FormErrors]: every key is optional; [None] is an absent
    key. *)
Module FormErrors.
Record t : Type := {
  feedback : option jsstring;
  name : option jsstring;
  email : option jsstring
}.

Definition empty : t := {| feedback := None; name := None; email := None |}.

Definition present (o : option jsstring) : nat :=
  match o with Some _ => 1%nat | None => 0%nat end.

(** [Object.keys(e).length] *)
Definition keys_length (e : t) : nat :=
  (present (feedback e) + present (name e) + present (email e))%nat.
End FormErrors.

Module Touched.
Record t : Type := { feedback : bool; name : bool; email : bool }.
Definition none : t := {| feedback := false; name := false; email := false |}.
Definition all : t := {| feedback := true; name := true; email := true |}.
End Touched.

Record WebhookResponse : Type := {
  success : bool;
  message : option jsstring
}.

(** The [useState] cells of the component. [hoveredRating] and
    [isDarkMode] only select CSS classes and are left out. [isFormValid]
    exists in [SentimentAnalysisForm.tsx] only; the definitions for the
    other component neither read nor write it. *)
Record State : Type := {
  selectedRating : option Z;
  feedback : jsstring;
  name : jsstring;
  email : jsstring;
  isSubmitted : bool;
  isLoading : bool;
  errors : FormErrors.t;
  touched : Touched.t;
  submitError : jsstring;
  isFormValid : bool
}.

Definition initialState : State :=
  {| selectedRating := None; feedback := []; name := []; email := [];
     isSubmitted := false; isLoading := false;
     errors := FormErrors.empty; touched := Touched.none;
     submitError := []; isFormValid := false |}.

Definition setSelectedRating (v : option Z) (st : State) : State :=
  {| selectedRating := v; feedback := feedback st; name := name st;
     email := email st; isSubmitted := isSubmitted st;
     isLoading := isLoading st; errors := errors st;
     touched := touched st; submitError := submitError st;
     isFormValid := isFormValid st |}.

Definition setFeedback (v : jsstring) (st : State) : State :=
  {| selectedRating := selectedRating st; feedback := v; name := name st;
     email := email st; isSubmitted := isSubmitted st;
     isLoading := isLoading st; errors := errors st;
     touched := touched st; submitError := submitError st;
     isFormValid := isFormValid st |}.

Definition setName (v : jsstring) (st : State) : State :=
  {| selectedRating := selectedRating st; feedback := feedback st;
     name := v; email := email st; isSubmitted := isSubmitted st;
     isLoading := isLoading st; errors := errors st;
     touched := touched st; submitError := submitError st;
     isFormValid := isFormValid st |}.

Definition setEmail (v : jsstring) (st : State) : State :=
  {| selectedRating := selectedRating st; feedback := feedback st;
     name := name st; email := v; isSubmitted := isSubmitted st;
     isLoading := isLoading st; errors := errors st;
     touched := touched st; submitError := submitError st;
     isFormValid := isFormValid st |}.

Definition setIsSubmitted (v : bool) (st : State) : State :=
  {| selectedRating := selectedRating st; feedback := feedback st;
     name := name st; email := email st; isSubmitted := v;
     isLoading := isLoading st; errors := errors st;
     touched := touched st; submitError := submitError st;
     isFormValid := isFormValid st |}.

Definition setIsLoading (v : bool) (st : State) : State :=
  {| selectedRating := selectedRating st; feedback := feedback st;
     name := name st; email := email st; isSubmitted := isSubmitted st;
     isLoading := v; errors := errors st;
     touched := touched st; submitError := submitError st;
     isFormValid := isFormValid st |}.

Definition setErrors (v : FormErrors.t) (st : State) : State :=
  {| selectedRating := selectedRating st; feedback := feedback st;
     name := name st; email := email st; isSubmitted := isSubmitted st;
     isLoading := isLoading st; errors := v;
     touched := touched st; submitError := submitError st;
     isFormValid := isFormValid st |}.

Definition setTouched (v : Touched.t) (st : State) : State :=
  {| selectedRating := selectedRating st; feedback := feedback st;
     name := name st; email := email st; isSubmitted := isSubmitted st;
     isLoading := isLoading st; errors := errors st;
     touched := v; submitError := submitError st;
     isFormValid := isFormValid st |}.

Definition setSubmitError (v : jsstring) (st : State) : State :=
  {| selectedRating := selectedRating st; feedback := feedback st;
     name := name st; email := email st; isSubmitted := isSubmitted st;
     isLoading := isLoading st; errors := errors st;
     touched := touched st; submitError := v;
     isFormValid := isFormValid st |}.

Definition setIsFormValid (v : bool) (st : State) : State :=
  {| selectedRating := selectedRating st; feedback := feedback st;
     name := name st; email := email st; isSubmitted := isSubmitted st;
     isLoading := isLoading st; errors := errors st;
     touched := touched st; submitError := submitError st;
     isFormValid := v |}.

(** ** The two components and their configuration *)

Inductive Component : Type :=
| SentimentAnalysisForm   (* src/components/SentimentAnalysisForm.tsx *)
| PlainForm.              (* the variant without isFormValid and dark mode *)

(** [import.meta.env.VITE_WEBHOOK_URL] is a string or undefined. *)
Record Env : Type := {
  component : Component;
  VITE_WEBHOOK_URL : option jsstring
}.

(** [import.meta.env?.VITE_WEBHOOK_URL || ''] in the first component,
    [import.meta.env.VITE_WEBHOOK_URL] in the second. *)
Definition WEBHOOK_URL (env : Env) : option jsstring :=
  match component env with
  | SentimentAnalysisForm => Some (or_string (VITE_WEBHOOK_URL env) [])
  | PlainForm => VITE_WEBHOOK_URL env
  end.

(** ** The webhook client *)

(** The body of a request: [JSON.stringify(data)]. *)
Inductive JSON : Type := JSON_stringify (data : FeedbackData.t).

Record Request : Type := {
  url : jsstring;
  method : jsstring;
  headers : list (jsstring * jsstring);
  body : JSON
}.

Record Response : Type := {
  status : N;
  statusText : jsstring;
  responseBody : jsstring
}.

(** [response.ok]: the status is in the range 200-299. *)
Definition ok (r : Response) : bool :=
  (200 <=? status r) && (status r <=? 299).

(** A thrown value: an [Error] instance with its message, or anything
    else. *)
Inductive Thrown : Type :=
| ErrorObject (msg : jsstring)
| NotAnError.

(** How the promise returned by [fetch] settles. *)
Inductive FetchOutcome : Type :=
| Fulfilled (r : Response)
| Rejected (e : Thrown).

(** An async computation that awaits at most one [fetch]: either it
    finishes without network I/O, or it issues a request and continues
    with the way the request settles. *)
Inductive Async (A : Type) : Type :=
| Return (a : A)
| AwaitFetch (req : Request) (k : FetchOutcome -> A).
Arguments Return {A} a.
Arguments AwaitFetch {A} req k.

Definition Async_map {A B : Type} (f : A -> B) (c : Async A) : Async B :=
  match c with
  | Return a => Return (f a)
  | AwaitFetch req k => AwaitFetch req (fun o => f (k o))
  end.

(** The requests a computation issues. *)
Definition requests {A : Type} (c : Async A) : list Request :=
  match c with
  | Return _ => []
  | AwaitFetch req _ => [req]
  end.

(** The [try] block of [submitToWebhook] once [fetch] has settled: it
    completes with a result or throws. *)
Definition submitToWebhook_try (o : FetchOutcome) : Thrown + WebhookResponse :=
  match o with
  | Rejected e => inl e
  | Fulfilled response =>
      if negb (ok response) then
        inl (ErrorObject (lit "Webhook error: " ++ number_toString (status response)
                            ++ lit " " ++ statusText response))
      else
        inr {| success := true;
               message := Some (lit "Feedback submitted successfully") |}
  end.

(** The [catch] block of [submitToWebhook]. *)
Definition submitToWebhook_catch (error : Thrown) : WebhookResponse :=
  {| success := false;
     message := Some (match error with
                      | ErrorObject msg => msg
                      | NotAnError => lit "Failed to submit feedback"
                      end) |}.

Definition submitToWebhook_settle (o : FetchOutcome) : WebhookResponse :=
  match submitToWebhook_try o with
  | inr result => result
  | inl error => submitToWebhook_catch error
  end.

Definition submitToWebhook (env : Env) (data : FeedbackData.t)
  : Async WebhookResponse :=
  if negb (truthy_opt_string (WEBHOOK_URL env)) then
    Return {| success := false;
              message := Some (lit "Webhook configuration error. Please try again later.") |}
  else
    AwaitFetch
      {| url := or_string (WEBHOOK_URL env) [];
         method := lit "POST";
         headers := [(lit "Content-Type", lit "application/json")];
         body := JSON_stringify data |}
      submitToWebhook_settle.

(** ** Validation *)

(** The object [newErrors] that [validateForm] builds. *)
Definition newErrors (st : State) : FormErrors.t :=
  {| FormErrors.feedback :=
       if negb (truthy_string (trim (feedback st))) then
         Some (lit "Feedback is required")
       else if (List.length (trim (feedback st)) <? 10)%nat then
         Some (lit "Feedback must be at least 10 characters")
       else None;
     FormErrors.name :=
       if negb (truthy_string (trim (name st))) then
         Some (lit "Name is required")
       else None;
     FormErrors.email :=
       if negb (truthy_string (trim (email st))) then
         Some (lit "Email is required")
       else if negb (validateEmail (email st)) then
         Some (lit "Please enter a valid email address")
       else None |}.

(** [validateForm]: stores the errors and returns whether there are
    none. *)
Definition validateForm (st : State) : bool * State :=
  let e := newErrors st in
  ((FormErrors.keys_length e =? 0)%nat, setErrors e st).

(** [checkFormValidity], of [SentimentAnalysisForm.tsx] only. *)
Definition checkFormValidity (st : State) : bool :=
  if negb (truthy_number (selectedRating st))
     || negb (truthy_string (trim (feedback st)))
     || negb (truthy_string (trim (name st)))
     || negb (truthy_string (trim (email st)))
  then false
  else
    let hasErrors :=
      (List.length (trim (feedback st)) <? 10)%nat || negb (validateEmail (email st)) in
    negb hasErrors.

(** ** Event handlers *)

Inductive Field : Type := Feedback | Name | Email.

(** [{ ...touched, [field]: true }] *)
Definition touch (field : Field) (t : Touched.t) : Touched.t :=
  match field with
  | Feedback => {| Touched.feedback := true; Touched.name := Touched.name t;
                   Touched.email := Touched.email t |}
  | Name => {| Touched.feedback := Touched.feedback t; Touched.name := true;
               Touched.email := Touched.email t |}
  | Email => {| Touched.feedback := Touched.feedback t;
                Touched.name := Touched.name t; Touched.email := true |}
  end.

Definition handleBlur (field : Field) (st : State) : State :=
  snd (validateForm (setTouched (touch field (touched st)) st)).

(** The [onChange] handlers of the three inputs. *)
Definition handleChange (field : Field) (v : jsstring) (st : State) : State :=
  match field with
  | Feedback => setFeedback v st
  | Name => setName v st
  | Email => setEmail v st
  end.

(** What [handleSubmit] does with the result of [submitToWebhook], on the
    state of that moment: the body of its [try] and its [finally]. The
    setters all store constants, so the continuation is a function of the
    current state. Its [catch] is unreachable, [submitToWebhook] catching
    every fault itself. *)
Definition handleSubmit_resume (result : WebhookResponse) (st : State) : State :=
  let st1 :=
    if success result then setIsSubmitted true st
    else setSubmitError (or_string (message result) (lit "Failed to submit feedback")) st in
  setIsLoading false st1.

(** The payload built by [handleSubmit]; [now] is the value of
    [new Date().toISOString()] at that moment. *)
Definition feedbackData (now : jsstring) (r : Z) (st : State) : FeedbackData.t :=
  {| FeedbackData.rating := r;
     FeedbackData.feedback := trim (feedback st);
     FeedbackData.name := trim (name st);
     FeedbackData.email := trim (email st);
     FeedbackData.timestamp := now |}.

(** [handleSubmit] up to its [await]: the state it leaves and the rest
    of the computation, which transforms the state current when the
    webhook call has settled. *)
Definition handleSubmit (env : Env) (now : jsstring) (st : State)
  : State * Async (State -> State) :=
  let st1 := setTouched Touched.all st in
  let '(valid, st2) := validateForm st1 in
  if valid && truthy_number (selectedRating st) then
    match selectedRating st with
    | Some r =>
        let st3 := setSubmitError [] (setIsLoading true st2) in
        (st3, Async_map handleSubmit_resume
                (submitToWebhook env (feedbackData now r st)))
    | None => (st2, Return (fun s => s))   (* null is falsy: not reached *)
    end
  else (st2, Return (fun s => s)).

Definition handleReset (env : Env) (st : State) : State :=
  let st1 :=
    setSubmitError []
      (setErrors FormErrors.empty
         (setIsSubmitted false
            (setEmail [] (setName [] (setFeedback [] (setSelectedRating None st)))))) in
  let st2 :=
    match component env with
    | SentimentAnalysisForm => setIsFormValid false st1
    | PlainForm => st1
    end in
  setTouched Touched.none st2.

(** ** Rendering *)

Record SubmitButton : Type := {
  disabled : bool;
  spinner : bool
}.

(** The form as rendered when [isSubmitted] is false. The rating picker
    and the progress indicator are always part of it. *)
Record FormView : Type := {
  progress : bool * bool * bool;
  ratingLabel : option jsstring;
  feedbackArea : bool;
  feedbackErrorShown : option jsstring;
  contactFields : bool;
  nameErrorShown : option jsstring;
  emailErrorShown : option jsstring;
  submitControl : option SubmitButton;
  submitErrorShown : option jsstring
}.

Inductive View : Type :=
| ThankYou             (* the confirmation with "Submit Another Response" *)
| Form (v : FormView).

(** [touched.f && errors.f && <div>...</div>] *)
Definition shownError (t : bool) (e : option jsstring) : option jsstring :=
  if t && truthy_opt_string e then e else None.

(** [emojis[rating - 1]]: undefined outside the indices 0 to 2. *)
Definition emojiAt (rating : Z) : option Emoji :=
  if (1 <=? rating)%Z then nth_error emojis (Z.to_nat (rating - 1)) else None.

(** [emojis[r - 1]?.label] *)
Definition labelOf (r : Z) : option jsstring :=
  option_map label (emojiAt r).

Definition render (env : Env) (st : State) : View :=
  if isSubmitted st then ThankYou
  else
    let rated := truthy_number (selectedRating st) in
    let hasFeedback := truthy_string (trim (feedback st)) in
    let hasName := truthy_string (trim (name st)) in
    let hasEmail := truthy_string (trim (email st)) in
    Form
      {| progress :=
           (match selectedRating st with Some _ => true | None => false end,
            hasFeedback, hasName && hasEmail);
         ratingLabel :=
           match selectedRating st with
           | Some r => if rated then labelOf r else None
           | None => None
           end;
         feedbackArea := rated;
         feedbackErrorShown :=
           if rated
           then shownError (Touched.feedback (touched st))
                           (FormErrors.feedback (errors st))
           else None;
         contactFields := rated && hasFeedback;
         nameErrorShown :=
           if rated && hasFeedback
           then shownError (Touched.name (touched st)) (FormErrors.name (errors st))
           else None;
         emailErrorShown :=
           if rated && hasFeedback
           then shownError (Touched.email (touched st)) (FormErrors.email (errors st))
           else None;
         submitControl :=
           if rated && hasFeedback && hasName && hasEmail then
             Some {| disabled :=
                       match component env with
                       | SentimentAnalysisForm =>
                           isLoading st || negb (isFormValid st)
                       | PlainForm => isLoading st
                       end;
                     spinner := isLoading st |}
           else None;
         submitErrorShown :=
           if rated && hasFeedback && hasName && hasEmail
              && truthy_string (submitError st)
           then Some (submitError st) else None |}.

(** Which parts of the page a view shows. *)
Definition showsRatingPicker (v : View) : bool :=
  match v with ThankYou => false | Form _ => true end.

Definition showsFeedbackArea (v : View) : bool :=
  match v with ThankYou => false | Form f => feedbackArea f end.

Definition showsContactFields (v : View) : bool :=
  match v with ThankYou => false | Form f => contactFields f end.

Definition showsSubmitControl (v : View) : bool :=
  match v with
  | ThankYou => false
  | Form f => match submitControl f with Some _ => true | None => false end
  end.

(** The submit control is rendered and can be clicked. *)
Definition submitEnabled (v : View) : bool :=
  match v with
  | ThankYou => false
  | Form f => match submitControl f with
              | Some b => negb (disabled b)
              | None => false
              end
  end.

(** ** The component as a state machine

    The page is driven by discrete events. React re-renders before the
    next event is dispatched, so every event meets the view of the state
    its predecessor left; an event aimed at an element that is not
    rendered, or at a disabled button, is not dispatched at all. A
    pending [fetch] is kept with the continuation that awaits it. *)

Record Pending : Type := {
  request : Request;
  continuation : FetchOutcome -> State -> State
}.

Record World : Type := {
  ui : State;
  inflight : list Pending
}.

Definition initialWorld : World := {| ui := initialState; inflight := [] |}.

Inductive Event : Type :=
| ClickEmoji (i : nat)                  (* the i-th button of the picker *)
| Change (field : Field) (v : jsstring)
| Blur (field : Field)
| ClickSubmit (now : jsstring)          (* with the clock reading *)
| ClickReset                            (* "Submit Another Response" *)
| Settle (n : nat) (o : FetchOutcome).  (* the n-th pending fetch settles *)

Definition showsField (field : Field) (v : View) : bool :=
  match field with
  | Feedback => showsFeedbackArea v
  | Name | Email => showsContactFields v
  end.

Definition enabled (env : Env) (w : World) (e : Event) : bool :=
  let v := render env (ui w) in
  match e with
  | ClickEmoji i => showsRatingPicker v && (i <? List.length emojis)%nat
  | Change field _ => showsField field v
  | Blur field => showsField field v
  | ClickSubmit _ => submitEnabled v
  | ClickReset => match v with ThankYou => true | Form _ => false end
  | Settle n _ => (n <? List.length (inflight w))%nat
  end.

Fixpoint remove_nth {A : Type} (n : nat) (l : list A) : list A :=
  match l, n with
  | [], _ => []
  | _ :: r, O => r
  | a :: r, S m => a :: remove_nth m r
  end.

(** The handler of an event: the next world and the requests it sends.
    When [handleSubmit] awaits a promise that is already resolved, its
    continuation runs as a microtask, before any other event. *)
Definition handle (env : Env) (w : World) (e : Event) : World * list Request :=
  match e with
  | ClickEmoji i =>
      match nth_error emojis i with
      | Some item =>
          ({| ui := setSelectedRating (Some (value item)) (ui w);
              inflight := inflight w |}, [])
      | None => (w, [])
      end
  | Change field v =>
      ({| ui := handleChange field v (ui w); inflight := inflight w |}, [])
  | Blur field =>
      ({| ui := handleBlur field (ui w); inflight := inflight w |}, [])
  | ClickSubmit now =>
      let '(st, c) := handleSubmit env now (ui w) in
      match c with
      | Return k => ({| ui := k st; inflight := inflight w |}, [])
      | AwaitFetch req k =>
          ({| ui := st;
              inflight := inflight w ++ [{| request := req; continuation := k |}] |},
           [req])
      end
  | ClickReset =>
      ({| ui := handleReset env (ui w); inflight := inflight w |}, [])
  | Settle n o =>
      match nth_error (inflight w) n with
      | Some p =>
          ({| ui := continuation p o (ui w);
              inflight := remove_nth n (inflight w) |}, [])
      | None => (w, [])
      end
  end.

Definition jsstring_eqb (a b : jsstring) : bool :=
  if list_eq_dec N.eq_dec a b then true else false.

Definition rating_eqb (a b : option Z) : bool :=
  match a, b with
  | None, None => true
  | Some x, Some y => (x =? y)%Z
  | _, _ => false
  end.

(** The dependency array [[selectedRating, feedback, name, email]]. *)
Definition same_deps (a b : State) : bool :=
  rating_eqb (selectedRating a) (selectedRating b)
  && jsstring_eqb (feedback a) (feedback b)
  && jsstring_eqb (name a) (name b)
  && jsstring_eqb (email a) (email b).

(** The effect of [SentimentAnalysisForm.tsx] that keeps [isFormValid]:
    it runs after a render in which a dependency changed. *)
Definition useEffect_validity (env : Env) (before after : State) : State :=
  match component env with
  | SentimentAnalysisForm =>
      if same_deps before after then after
      else setIsFormValid (checkFormValidity after) after
  | PlainForm => after
  end.

(** A transition of the page at rest: the handler of a dispatched
    event and, where a dependency changed, the update of the effect.
    [page_step] below keeps the commit of the handler and the landing of
    the effect apart. *)
Definition step (env : Env) (w : World) (e : Event) : World * list Request :=
  if enabled env w e then
    let '(w', out) := handle env w e in
    ({| ui := useEffect_validity env (ui w) (ui w'); inflight := inflight w' |},
     out)
  else (w, []).

(** A run: the final world and every request sent on the way. *)
Fixpoint run (env : Env) (w : World) (es : list Event) : World * list Request :=
  match es with
  | [] => (w, [])
  | e :: r =>
      let '(w1, out1) := step env w e in
      let '(w2, out2) := run env w1 r in
      (w2, out1 ++ out2)
  end.

Inductive reachable (env : Env) : World -> Prop :=
| reach_mount : reachable env initialWorld
| reach_step : forall w e,
    reachable env w -> reachable env (fst (step env w e)).

(** The rating is unset or the value of one of the three emojis. *)
Definition rating_ok (st : State) : bool :=
  match selectedRating st with
  | None => true
  | Some v => existsb (fun item => (value item =? v)%Z) emojis
  end.

(** ** The pattern of the specification

    [local-part@domain.tld]: three non-empty parts without whitespace
    or ['@'], the first two separated by ['@'], the last two by ['.']. *)

Definition plain_part (s : jsstring) : Prop :=
  s <> [] /\ Forall (fun c => isWhiteSpace c = false /\ c <> 64) s.

Definition email_pattern (s : jsstring) : Prop :=
  exists local domain tld,
    s = local ++ 64 :: domain ++ 46 :: tld /\
    plain_part local /\ plain_part domain /\ plain_part tld.

(** [s] contains [sub]. *)
Definition contains (sub s : jsstring) : Prop :=
  exists pre post, s = pre ++ sub ++ post.

(** ** Invariants of the state machine *)

(** The continuation every pending request carries: the rest of
    [submitToWebhook] followed by the rest of [handleSubmit]. *)
Definition awaiting : FetchOutcome -> State -> State :=
  fun o => handleSubmit_resume (submitToWebhook_settle o).

(** [isFormValid] holds what the effect last computed. *)
Definition settled (env : Env) (st : State) : Prop :=
  component env = SentimentAnalysisForm -> isFormValid st = checkFormValidity st.

Record Inv (env : Env) (w : World) : Prop := {
  inv_rating : rating_ok (ui w) = true;
  inv_inflight :
    List.length (inflight w) = if isLoading (ui w) then 1%nat else 0%nat;
  inv_awaiting : Forall (fun p => continuation p = awaiting) (inflight w);
  inv_settled : settled env (ui w);
  inv_submitted : isSubmitted (ui w) = true -> isLoading (ui w) = false
}.

(** The result [submitToWebhook] returns without a configured URL. *)
Definition configurationError : WebhookResponse :=
  {| success := false;
     message := Some (lit "Webhook configuration error. Please try again later.") |}.

(** The state [handleSubmit] leaves when validation fails. *)
Definition rejectedSubmit (st : State) : State :=
  setErrors (newErrors st) (setTouched Touched.all st).

(** The state [handleSubmit] leaves at its [await]. *)
Definition startedSubmit (st : State) : State :=
  setSubmitError [] (setIsLoading true (rejectedSubmit st)).

(** The request [submitToWebhook] sends for a payload. *)
Definition postOf (env : Env) (data : FeedbackData.t) : Request :=
  {| url := or_string (WEBHOOK_URL env) [];
     method := lit "POST";
     headers := [(lit "Content-Type", lit "application/json")];
     body := JSON_stringify data |}.

(** ** Auxiliary notions used in the statements *)

(** A rating is set (not [null]). *)
Definition isSet (r : option Z) : bool :=
  match r with Some _ => true | None => false end.

(** The three field rules of the validation engine taken together. *)
Definition passes (st : State) : bool :=
  (10 <=? List.length (trim (feedback st)))%nat
  && truthy_string (trim (name st))
  && truthy_string (trim (email st))
  && validateEmail (email st).

(** An event of the user, as opposed to the network. *)
Definition isUserEvent (e : Event) : bool :=
  match e with Settle _ _ => false | _ => true end.

(** ** Example data, from the test scenarios of the specification *)

Definition configured (c : Component) : Env :=
  {| component := c; VITE_WEBHOOK_URL := Some (lit "https://hooks.example.com/feedback") |}.

Definition unconfigured (c : Component) : Env :=
  {| component := c; VITE_WEBHOOK_URL := None |}.

Definition fillIn (text : jsstring) : list Event :=
  [ ClickEmoji 2;
    Change Feedback text;
    Change Name (lit "Acme Inc");
    Change Email (lit "a@acme.com") ].

Definition greatService : jsstring := lit "Great service, very helpful".

Definition noon : jsstring := lit "2024-05-01T12:00:00.000Z".

Definition http (code : N) (text : jsstring) : FetchOutcome :=
  Fulfilled {| status := code; statusText := text; responseBody := [] |}.

Definition http200 : FetchOutcome := http 200 (lit "OK").
Definition http500 : FetchOutcome := http 500 (lit "Internal Server Error").

(** The world after the form was filled in and submit was clicked. *)
Definition submitting (c : Component) : World :=
  fst (run (configured c) initialWorld (fillIn greatService ++ [ClickSubmit noon])).

(** The world after the webhook accepted that submission. *)
Definition succeeded (c : Component) : World :=
  fst (run (configured c) initialWorld
         (fillIn greatService ++ [ClickSubmit noon; Settle 0 http200])).

(** The form filled in with a feedback of five characters. *)
Definition tooShort (c : Component) : World :=
  fst (run (configured c) initialWorld (fillIn (lit "short"))).

(** The form filled in and ready to be submitted. *)
Definition ready (c : Component) : World :=
  fst (run (configured c) initialWorld (fillIn greatService)).

(** The payload a request carries. *)
Definition payload (req : Request) : FeedbackData.t :=
  match body req with JSON_stringify data => data end.

(** The form filled in with blanks around the feedback and the name. *)
Definition padded (c : Component) : World :=
  fst (run (configured c) initialWorld
         [ ClickEmoji 2;
           Change Feedback (lit "  Great service, very helpful  ");
           Change Name (lit " Acme Inc ");
           Change Email (lit "a@acme.com") ]).

(** The world after the webhook answered that submission with 500. *)
Definition failed (c : Component) : World :=
  fst (run (configured c) initialWorld
         (fillIn greatService ++ [ClickSubmit noon; Settle 0 http500])).

(** ** The rest of the page *)

Inductive Icon : Type := faFaceFrown | faFaceMeh | faFaceGrinBeam.

(** [renderEmojiSVG]: the icon of the [switch] with the emoji whose
    colour and size style it. Every branch, the [default] one included,
    reads [emoji.iconColor], which throws a TypeError when [emoji] is
    undefined; [None] is that throw. *)
Definition renderEmojiSVG (rating : Z) : option (Icon * Emoji) :=
  let emoji := emojiAt rating in
  let icon :=
    if (rating =? 1)%Z then faFaceFrown
    else if (rating =? 2)%Z then faFaceMeh
    else if (rating =? 3)%Z then faFaceGrinBeam
    else faFaceMeh in
  match emoji with
  | Some e => Some (icon, e)
  | None => None
  end.

(** The paragraphs of the helper text under the form. *)
Inductive Helper : Type :=
| SelectRating       (* "Please select a rating to continue" *)
| ProvideFeedback    (* "Please provide your feedback to continue" *)
| FillContact        (* "Please fill in your contact information to submit" *)
| FixErrors.         (* "Please fix the validation errors above" *)

(** The helper paragraphs the form renders, in document order; the
    last one exists in [SentimentAnalysisForm.tsx] only. The thank-you
    screen has none. *)
Definition helperTexts (env : Env) (st : State) : list Helper :=
  if isSubmitted st then []
  else
    let rated := truthy_number (selectedRating st) in
    let hasFeedback := truthy_string (trim (feedback st)) in
    let hasName := truthy_string (trim (name st)) in
    let hasEmail := truthy_string (trim (email st)) in
    (if negb rated then [SelectRating] else [])
    ++ (if rated && negb hasFeedback then [ProvideFeedback] else [])
    ++ (if rated && hasFeedback && (negb hasName || negb hasEmail)
        then [FillContact] else [])
    ++ match component env with
       | SentimentAnalysisForm =>
           if rated && hasFeedback && hasName && hasEmail && negb (isFormValid st)
           then [FixErrors] else []
       | PlainForm => []
       end.

(** The error, the touched flag and the displayed error of a field. *)
Definition fieldError (field : Field) (e : FormErrors.t) : option jsstring :=
  match field with
  | Feedback => FormErrors.feedback e
  | Name => FormErrors.name e
  | Email => FormErrors.email e
  end.

Definition fieldTouched (field : Field) (t : Touched.t) : bool :=
  match field with
  | Feedback => Touched.feedback t
  | Name => Touched.name t
  | Email => Touched.email t
  end.

Definition errorShown (field : Field) (v : View) : option jsstring :=
  match v with
  | ThankYou => None
  | Form f =>
      match field with
      | Feedback => feedbackErrorShown f
      | Name => nameErrorShown f
      | Email => emailErrorShown f
      end
  end.

(** The events whose handlers call [validateForm] or clear the errors. *)
Definition revalidates (e : Event) : bool :=
  match e with
  | Blur _ | ClickSubmit _ | ClickReset => true
  | _ => false
  end.

(** The number of settlements in a list of events. *)
Definition settlements (es : list Event) : nat :=
  List.length (filter (fun e => negb (isUserEvent e)) es).

(** A stored error message is present and not the empty string, or
    absent. *)
Definition soundError (e : option jsstring) : Prop :=
  match e with Some m => m <> [] | None => True end.

(** Further invariants of the state machine. *)
Record Inv2 (w : World) : Prop := {
  inv_blank :
    selectedRating (ui w) = None ->
    feedback (ui w) = [] /\ name (ui w) = [] /\ email (ui w) = [];
  inv_untouched :
    touched (ui w) = Touched.none -> errors (ui w) = FormErrors.empty;
  inv_sound :
    forall field, soundError (fieldError field (errors (ui w)));
  inv_quiet :
    isLoading (ui w) = true \/ isSubmitted (ui w) = true ->
    submitError (ui w) = []
}.

(** A payload that the validation rules accept. *)
Definition validPayload (d : FeedbackData.t) : Prop :=
  (FeedbackData.rating d = 1 \/ FeedbackData.rating d = 2 \/ FeedbackData.rating d = 3)%Z /\
  (10 <= List.length (FeedbackData.feedback d))%nat /\
  trim (FeedbackData.feedback d) = FeedbackData.feedback d /\
  FeedbackData.name d <> [] /\
  trim (FeedbackData.name d) = FeedbackData.name d /\
  email_pattern (FeedbackData.email d).

(** A request as the form is meant to send it: a JSON POST to the
    configured URL with a payload the validation rules accept. *)
Definition wellFormed (env : Env) (req : Request) : Prop :=
  method req = lit "POST" /\
  headers req = [(lit "Content-Type", lit "application/json")] /\
  VITE_WEBHOOK_URL env = Some (url req) /\
  url req <> [] /\
  validPayload (payload req).

(** ** The effect as a transition of its own

    [step] above is the page once React has come to rest: the handler
    and, where a dependency changed, the update of the effect. In the
    browser the two are apart. The handler's updates are rendered and
    committed first, with [isFormValid] as it was; the effect of that
    render runs afterwards and its [setIsFormValid] causes one more
    render. An event can be handled in between. A page is the world on
    display together with whether the effect of its render has yet to
    run. *)

Record Page : Type := {
  shown : World;
  effectPending : bool
}.

(** After the first render the effect runs once, whatever the
    dependencies; the other component has no effect. *)
Definition mountedPage (env : Env) : Page :=
  {| shown := initialWorld;
     effectPending := match component env with
                      | SentimentAnalysisForm => true
                      | PlainForm => false
                      end |}.

Inductive PageEvent : Type :=
| Dispatch (e : Event)     (* an event is handled on the page on display *)
| EffectLands.             (* the pending effect runs and its update renders *)

(** The effect of the render of [rendered] writes into the current
    state: [setIsFormValid(checkFormValidity())], with the fields of the
    render it belongs to. *)
Definition landEffect (env : Env) (rendered st : State) : State :=
  match component env with
  | SentimentAnalysisForm => setIsFormValid (checkFormValidity rendered) st
  | PlainForm => st
  end.

(** The world React commits after an event: the handler alone. *)
Definition commit (env : Env) (w : World) (e : Event) : World * list Request :=
  if enabled env w e then handle env w e else (w, []).

(** A transition of the page. An event that is dispatched meets the
    view on display, stale [isFormValid] included; before its updates
    are rendered React runs the effect still pending from the render on
    display, and the new render schedules the effect again when a
    dependency changed. *)
Definition page_step (env : Env) (p : Page) (pe : PageEvent) : Page * list Request :=
  match pe with
  | EffectLands =>
      if effectPending p then
        ({| shown := {| ui := landEffect env (ui (shown p)) (ui (shown p));
                        inflight := inflight (shown p) |};
            effectPending := false |}, [])
      else (p, [])
  | Dispatch e =>
      if enabled env (shown p) e then
        let '(w', out) := commit env (shown p) e in
        ({| shown :=
              {| ui := if effectPending p
                       then landEffect env (ui (shown p)) (ui w')
                       else ui w';
                 inflight := inflight w' |};
            effectPending :=
              match component env with
              | SentimentAnalysisForm => negb (same_deps (ui (shown p)) (ui w'))
              | PlainForm => false
              end |}, out)
      else (p, [])
  end.

Fixpoint page_run (env : Env) (p : Page) (pes : list PageEvent)
  : Page * list Request :=
  match pes with
  | [] => (p, [])
  | pe :: r =>
      let '(p1, out1) := page_step env p pe in
      let '(p2, out2) := page_run env p1 r in
      (p2, out1 ++ out2)
  end.

Inductive page_reachable (env : Env) : Page -> Prop :=
| page_mount : page_reachable env (mountedPage env)
| page_next : forall p pe,
    page_reachable env p -> page_reachable env (fst (page_step env p pe)).

(** The invariants of a world that do not involve [isFormValid]. *)
Record Core (w : World) : Prop := {
  core_rating : rating_ok (ui w) = true;
  core_inflight :
    List.length (inflight w) = if isLoading (ui w) then 1%nat else 0%nat;
  core_awaiting : Forall (fun p => continuation p = awaiting) (inflight w);
  core_submitted : isSubmitted (ui w) = true -> isLoading (ui w) = false
}.

(** A page is in order when its world is and, with no effect pending,
    [isFormValid] is what the effect computes. *)
Record PageInv (env : Env) (p : Page) : Prop := {
  page_core : Core (shown p);
  page_settled : effectPending p = false -> settled env (ui (shown p));
  page_plain : component env = PlainForm -> effectPending p = false
}.

(** Filling the form in, every effect landing before the next event. *)
Definition fillInPage (text : jsstring) : list PageEvent :=
  [ Dispatch (ClickEmoji 2); EffectLands;
    Dispatch (Change Feedback text); EffectLands;
    Dispatch (Change Name (lit "Acme Inc")); EffectLands;
    Dispatch (Change Email (lit "a@acme.com")); EffectLands ].

(** The valid form on display with every effect run. *)
Definition readyPage (c : Component) : Page :=
  fst (page_run (configured c) (mountedPage (configured c)) (fillInPage greatService)).

(** The valid form after the feedback was shortened to "short": the
    render is committed, its effect has not run yet. *)
Definition stalePage (c : Component) : Page :=
  fst (page_step (configured c) (readyPage c) (Dispatch (Change Feedback (lit "short")))).

(** * Properties *)

(** ** Strings and trimming *)

Section Trim.

Lemma truthy_string_nil (s : jsstring) :
  truthy_string s = false <-> s = [].
Proof. destruct s; simpl; split; congruence. Qed.

Lemma truthy_string_length (s : jsstring) :
  truthy_string s = negb (List.length s =? 0)%nat.
Proof. destruct s; reflexivity. Qed.

Lemma trimStart_blank (s : jsstring) :
  trimStart s = [] <-> forallb isWhiteSpace s = true.
Proof.
  induction s as [|c r IH]; simpl.
  - tauto.
  - destruct (isWhiteSpace c); simpl.
    + exact IH.
    + split; discriminate.
Qed.

Lemma trimStart_suffix (s : jsstring) :
  exists blanks, s = blanks ++ trimStart s /\ forallb isWhiteSpace blanks = true.
Proof.
  induction s as [|c r [b [E B]]]; simpl.
  - exists []; auto.
  - destruct (isWhiteSpace c) eqn:W.
    + exists (c :: b); simpl. rewrite W, B. split; [f_equal; exact E | reflexivity].
    + exists []; auto.
Qed.

Lemma trimStart_clean (s : jsstring) :
  Forall (fun c => isWhiteSpace c = false) s -> trimStart s = s.
Proof.
  destruct s as [|c r]; simpl; [reflexivity|].
  intros H. inversion H as [|? ? W _]; subst. now rewrite W.
Qed.

Lemma trim_blank (s : jsstring) :
  trim s = [] <-> forallb isWhiteSpace s = true.
Proof.
  unfold trim, trimEnd.
  destruct (trimStart_suffix s) as [b [E B]].
  split.
  - intros H.
    assert (R : trimStart (rev (trimStart s)) = []).
    { apply (f_equal (@rev char16)) in H.
      rewrite rev_involutive in H. exact H. }
    apply trimStart_blank in R. rewrite forallb_forall in R.
    rewrite E, forallb_app, B. simpl.
    apply forallb_forall. intros c Hc. apply R. now apply in_rev in Hc.
  - intros H. apply trimStart_blank in H. now rewrite H.
Qed.

Lemma trim_clean (s : jsstring) :
  Forall (fun c => isWhiteSpace c = false) s -> trim s = s.
Proof.
  intros H. unfold trim, trimEnd.
  rewrite (trimStart_clean s H), trimStart_clean.
  - apply rev_involutive.
  - now apply Forall_rev.
Qed.

Lemma trim_lit_nil : trim [] = [].
Proof. reflexivity. Qed.

End Trim.

(** ** The regular expression against the pattern of the specification *)

Section EmailPattern.

Lemma not_space_at_spec (c : char16) :
  not_space_at c = true <-> isWhiteSpace c = false /\ c <> 64.
Proof.
  unfold not_space_at. rewrite negb_true_iff, orb_false_iff, N.eqb_neq.
  tauto.
Qed.

Lemma forallb_plain (s : jsstring) :
  forallb not_space_at s = true <->
  Forall (fun c => isWhiteSpace c = false /\ c <> 64) s.
Proof.
  rewrite forallb_forall, Forall_forall.
  split; intros H c Hc; apply not_space_at_spec; auto.
Qed.

(** A greedy [+] with backtracking succeeds exactly when some
    non-empty prefix in the class is followed by a rest the
    continuation accepts. *)
Lemma plus_match_spec (p : char16 -> bool) (k : jsstring -> bool) (s : jsstring) :
  plus_match p s k = true <->
  exists a b, s = a ++ b /\ a <> [] /\ forallb p a = true /\ k b = true.
Proof.
  induction s as [|c r IH]; simpl.
  - split; [discriminate|].
    intros (a & b & E & N & _). destruct a; [congruence | discriminate].
  - rewrite andb_true_iff, orb_true_iff, IH. split.
    + intros [P [(a & b & E & N & A & K) | K]].
      * exists (c :: a), b. simpl. rewrite P, A, E. repeat split; auto; discriminate.
      * exists [c], r. simpl. rewrite P. repeat split; auto; discriminate.
    + intros (a & b & E & N & A & K).
      destruct a as [|c' a]; [congruence|].
      simpl in E, A. injection E as -> ->.
      apply andb_true_iff in A as [P A]. split; [exact P|].
      destruct a as [|c'' a].
      * right. exact K.
      * left. exists (c'' :: a), b. repeat split; auto; discriminate.
Qed.

Lemma chr_match_spec (c : char16) (k : jsstring -> bool) (s : jsstring) :
  rmatch (Chr c) s k = true <-> exists r, s = c :: r /\ k r = true.
Proof.
  destruct s as [|d s']; simpl.
  - split; [discriminate | intros (r & E & _); discriminate].
  - rewrite andb_true_iff, N.eqb_eq. split.
    + intros [-> K]. eauto.
    + intros (r & E & K). injection E as -> ->. auto.
Qed.

Lemma at_end_spec (s : jsstring) : at_end s = true <-> s = [].
Proof. destruct s; simpl; split; congruence. Qed.

(** [validateEmail] accepts exactly the strings of the form
    [local-part@domain.tld]. *)
Lemma validateEmail_spec (s : jsstring) :
  validateEmail s = true <-> email_pattern s.
Proof.
  unfold validateEmail, test_anchored, emailRegex, email_pattern, plain_part.
  simpl rmatch. rewrite plus_match_spec. split.
  - intros (l & r1 & E1 & Nl & Al & K1).
    destruct r1 as [|c1 r1]; [discriminate|]; simpl in K1.
    apply andb_true_iff in K1 as [C1 K1]. apply N.eqb_eq in C1. subst c1.
    apply plus_match_spec in K1 as (d & r2 & E2 & Nd & Ad & K2).
    destruct r2 as [|c2 r2]; [discriminate|]; simpl in K2.
    apply andb_true_iff in K2 as [C2 K2]. apply N.eqb_eq in C2. subst c2.
    apply plus_match_spec in K2 as (t & r3 & E3 & Nt & At & K3).
    apply at_end_spec in K3. subst r3. rewrite app_nil_r in E3. subst r2 r1 s.
    exists l, d, t. rewrite <- !forallb_plain. auto 10.
  - intros (l & d & t & E & [Nl Al] & [Nd Ad] & [Nt At]).
    rewrite <- forallb_plain in Al, Ad, At.
    exists l, (64 :: d ++ 46 :: t). repeat split; auto.
    simpl. apply plus_match_spec.
    exists d, (46 :: t). repeat split; auto.
    simpl. apply plus_match_spec.
    exists t, []. rewrite app_nil_r. repeat split; auto.
Qed.

Lemma isWhiteSpace_at : isWhiteSpace 64 = false.
Proof. reflexivity. Qed.

Lemma isWhiteSpace_dot : isWhiteSpace 46 = false.
Proof. reflexivity. Qed.

(** A string that [validateEmail] accepts holds no whitespace, so
    trimming leaves it as it is. *)
Lemma validateEmail_clean (s : jsstring) :
  validateEmail s = true -> Forall (fun c => isWhiteSpace c = false) s.
Proof.
  intros H. apply validateEmail_spec in H.
  destruct H as (l & d & t & -> & [_ Al] & [_ Ad] & [_ At]).
  assert (W : forall x, Forall (fun c => isWhiteSpace c = false /\ c <> 64) x ->
                        Forall (fun c => isWhiteSpace c = false) x).
  { intros x Hx. eapply Forall_impl; [|exact Hx]. simpl. tauto. }
  apply Forall_app. split; [auto|].
  constructor; [reflexivity|].
  apply Forall_app. split; [auto|].
  constructor; [reflexivity | auto].
Qed.

Lemma validateEmail_trim (s : jsstring) :
  validateEmail s = true -> trim s = s.
Proof. intros H. apply trim_clean, validateEmail_clean, H. Qed.

Lemma validateEmail_nonempty (s : jsstring) :
  validateEmail s = true -> s <> [].
Proof.
  intros H E. subst s. discriminate H.
Qed.

End EmailPattern.

(** ** Validation *)

Section Validation.

(** On a rating of the picker, JavaScript truthiness is presence. *)
Lemma rating_ok_truthy (st : State) :
  rating_ok st = true -> truthy_number (selectedRating st) = isSet (selectedRating st).
Proof.
  unfold rating_ok, truthy_number. destruct (selectedRating st) as [v|]; [|reflexivity].
  intros H. simpl isSet.
  destruct (Z.eqb_spec v 0) as [->|]; [vm_compute in H; discriminate | reflexivity].
Qed.

Lemma feedback_error_cases (st : State) :
  FormErrors.feedback (newErrors st) =
    if (List.length (trim (feedback st)) =? 0)%nat then
      Some (lit "Feedback is required")
    else if (List.length (trim (feedback st)) <? 10)%nat then
      Some (lit "Feedback must be at least 10 characters")
    else None.
Proof.
  simpl. rewrite truthy_string_length, negb_involutive. reflexivity.
Qed.

Lemma keys_length_zero (e : FormErrors.t) :
  (FormErrors.keys_length e =? 0)%nat = true <->
  FormErrors.feedback e = None /\ FormErrors.name e = None /\ FormErrors.email e = None.
Proof.
  destruct e as [[f|] [n|] [m|]]; unfold FormErrors.keys_length; simpl;
    intuition congruence.
Qed.

Lemma validateForm_passes (st : State) :
  fst (validateForm st) = passes st.
Proof.
  unfold validateForm, passes, newErrors, FormErrors.keys_length.
  cbv [fst FormErrors.feedback FormErrors.name FormErrors.email].
  rewrite (truthy_string_length (trim (feedback st))).
  generalize (List.length (trim (feedback st))). intros n.
  destruct (Nat.eqb_spec n 0) as [Z0|N0];
    destruct (Nat.ltb_spec n 10) as [Lt|Ge];
    destruct (Nat.leb_spec 10 n) as [Le|Gt]; try lia; simpl;
    destruct (truthy_string (trim (name st))); simpl;
    destruct (truthy_string (trim (email st))); simpl;
    destruct (validateEmail (email st)); reflexivity.
Qed.

Lemma validateForm_errors (st : State) :
  snd (validateForm st) = setErrors (newErrors st) st.
Proof. reflexivity. Qed.

Lemma checkFormValidity_passes (st : State) :
  checkFormValidity st = truthy_number (selectedRating st) && passes st.
Proof.
  unfold checkFormValidity, passes.
  destruct (truthy_number (selectedRating st)); cbn [negb orb andb]; [|reflexivity].
  rewrite (truthy_string_length (trim (feedback st))).
  generalize (List.length (trim (feedback st))). intros n.
  destruct (Nat.eqb_spec n 0) as [Z0|N0];
    destruct (Nat.ltb_spec n 10) as [Lt|Ge];
    destruct (Nat.leb_spec 10 n) as [Le|Gt]; try lia; simpl;
    destruct (truthy_string (trim (name st))); simpl;
    destruct (truthy_string (trim (email st))); simpl;
    destruct (validateEmail (email st)); reflexivity.
Qed.

Lemma short_feedback_fails (st : State) :
  (List.length (trim (feedback st)) < 10)%nat -> passes st = false.
Proof.
  intros H. unfold passes.
  destruct (Nat.leb_spec 10 (List.length (trim (feedback st)))); [lia | reflexivity].
Qed.

End Validation.

(** ** The handlers *)

Section Handlers.

Variable env : Env.

Lemma submitToWebhook_cases (data : FeedbackData.t) :
  (truthy_opt_string (WEBHOOK_URL env) = false /\
   submitToWebhook env data = Return configurationError)
  \/
  (truthy_opt_string (WEBHOOK_URL env) = true /\
   submitToWebhook env data = AwaitFetch (postOf env data) submitToWebhook_settle).
Proof.
  unfold submitToWebhook.
  destruct (truthy_opt_string (WEBHOOK_URL env)); simpl; [right | left]; auto.
Qed.

(** [handleSubmit] either refuses, leaving only errors and touched
    flags behind, or starts a submission for the rating it found. *)
Lemma handleSubmit_cases (now : jsstring) (st : State) :
  (passes st && truthy_number (selectedRating st) = false /\
   handleSubmit env now st = (rejectedSubmit st, Return (fun s => s)))
  \/
  (exists r, selectedRating st = Some r /\
     passes st && truthy_number (selectedRating st) = true /\
     handleSubmit env now st =
       (startedSubmit st,
        Async_map handleSubmit_resume
          (submitToWebhook env (feedbackData now r st)))).
Proof.
  unfold handleSubmit.
  pose proof (validateForm_passes (setTouched Touched.all st)) as V.
  destruct (validateForm (setTouched Touched.all st)) as [valid st2] eqn:E.
  assert (S2 : st2 = rejectedSubmit st).
  { pose proof (validateForm_errors (setTouched Touched.all st)) as R.
    rewrite E in R. exact R. }
  simpl in V. change (passes (setTouched Touched.all st)) with (passes st) in V.
  subst valid st2.
  destruct (passes st && truthy_number (selectedRating st)) eqn:C.
  - destruct (selectedRating st) as [r|] eqn:R.
    + right. exists r. auto.
    + rewrite andb_false_r in C. discriminate.
  - left. auto.
Qed.

Lemma handleSubmit_requests (now : jsstring) (st : State) :
  requests (snd (handleSubmit env now st)) =
    if passes st && truthy_number (selectedRating st)
          && truthy_opt_string (WEBHOOK_URL env)
    then match selectedRating st with
         | Some r => [postOf env (feedbackData now r st)]
         | None => []
         end
    else [].
Proof.
  destruct (handleSubmit_cases now st) as [[C ->] | (r & R & C & ->)];
    rewrite C; simpl; [reflexivity|].
  rewrite R.
  destruct (submitToWebhook_cases (feedbackData now r st)) as [[U ->] | [U ->]];
    rewrite U; reflexivity.
Qed.

End Handlers.

(** ** The effect that keeps [isFormValid] *)

Section Effect.

Variable env : Env.

Lemma useEffect_shape (before after : State) :
  exists v, useEffect_validity env before after = setIsFormValid v after.
Proof.
  unfold useEffect_validity.
  destruct (component env); [destruct (same_deps before after)|].
  - exists (isFormValid after). now destruct after.
  - eauto.
  - exists (isFormValid after). now destruct after.
Qed.

Lemma rating_eqb_eq (a b : option Z) : rating_eqb a b = true -> a = b.
Proof.
  destruct a, b; simpl; try discriminate; auto.
  intros H. apply Z.eqb_eq in H. now subst.
Qed.

Lemma jsstring_eqb_eq (a b : jsstring) : jsstring_eqb a b = true -> a = b.
Proof.
  unfold jsstring_eqb. destruct (list_eq_dec N.eq_dec a b); [auto | discriminate].
Qed.

Lemma same_deps_eq (a b : State) :
  same_deps a b = true ->
  selectedRating a = selectedRating b /\ feedback a = feedback b /\
  name a = name b /\ email a = email b.
Proof.
  unfold same_deps. rewrite !andb_true_iff.
  intros [[[R F] N] M].
  auto using rating_eqb_eq, jsstring_eqb_eq.
Qed.

Lemma same_deps_validity (a b : State) :
  same_deps a b = true -> checkFormValidity a = checkFormValidity b.
Proof.
  intros H. apply same_deps_eq in H as (R & F & N & M).
  unfold checkFormValidity. now rewrite R, F, N, M.
Qed.

Lemma settled_same_deps (a b : State) :
  settled env a -> isFormValid b = isFormValid a ->
  same_deps a b = true -> settled env b.
Proof.
  intros S V D C. rewrite V, (S C). now apply same_deps_validity.
Qed.

Lemma useEffect_settles (before after : State) :
  (same_deps before after = true -> settled env after) ->
  settled env (useEffect_validity env before after).
Proof.
  intros H C. unfold useEffect_validity. rewrite C.
  destruct (same_deps before after).
  - now apply H.
  - reflexivity.
Qed.

End Effect.

(** ** What the view implies about the state *)

Section Views.

Variable env : Env.

Lemma render_submitted (st : State) :
  isSubmitted st = true -> render env st = ThankYou.
Proof. intros H. unfold render. now rewrite H. Qed.

Lemma render_thankYou (st : State) :
  render env st = ThankYou -> isSubmitted st = true.
Proof. unfold render. destruct (isSubmitted st); [auto | discriminate]. Qed.

Lemma showsRatingPicker_spec (st : State) :
  showsRatingPicker (render env st) = negb (isSubmitted st).
Proof. unfold render. now destruct (isSubmitted st). Qed.

Lemma showsFeedbackArea_spec (st : State) :
  showsFeedbackArea (render env st) =
    negb (isSubmitted st) && truthy_number (selectedRating st).
Proof. unfold render. now destruct (isSubmitted st). Qed.

Lemma showsContactFields_spec (st : State) :
  showsContactFields (render env st) =
    negb (isSubmitted st) && truthy_number (selectedRating st)
    && truthy_string (trim (feedback st)).
Proof. unfold render. now destruct (isSubmitted st). Qed.

Lemma showsSubmitControl_spec (st : State) :
  showsSubmitControl (render env st) =
    negb (isSubmitted st) && truthy_number (selectedRating st)
    && truthy_string (trim (feedback st))
    && truthy_string (trim (name st))
    && truthy_string (trim (email st)).
Proof.
  unfold render. destruct (isSubmitted st); [reflexivity|]. simpl.
  now destruct (truthy_number (selectedRating st)
                && truthy_string (trim (feedback st))
                && truthy_string (trim (name st))
                && truthy_string (trim (email st))).
Qed.

Lemma submitEnabled_spec (st : State) :
  submitEnabled (render env st) =
    showsSubmitControl (render env st)
    && negb (isLoading st)
    && match component env with
       | SentimentAnalysisForm => isFormValid st
       | PlainForm => true
       end.
Proof.
  unfold render. destruct (isSubmitted st); [reflexivity|]. simpl.
  destruct (truthy_number (selectedRating st)
            && truthy_string (trim (feedback st))
            && truthy_string (trim (name st))
            && truthy_string (trim (email st))); [|reflexivity].
  simpl. destruct (component env); simpl.
  - now rewrite negb_orb, negb_involutive.
  - now rewrite andb_true_r.
Qed.

Lemma submitEnabled_state (st : State) :
  submitEnabled (render env st) = true ->
  isSubmitted st = false /\ isLoading st = false.
Proof.
  rewrite submitEnabled_spec, showsSubmitControl_spec, !andb_true_iff, !negb_true_iff.
  tauto.
Qed.

End Views.

(** ** Invariants of every reachable world *)

Section Invariant.

Variable env : Env.

Lemma Inv_initial : Inv env initialWorld.
Proof.
  split; simpl; auto; first [discriminate | intros _; reflexivity].
Qed.

(** The obligations a handler has to meet for the world it leaves,
    before the effect runs. *)
Lemma Inv_after_effect (w : World) (st : State) (fl : list Pending) :
  rating_ok st = true ->
  List.length fl = (if isLoading st then 1%nat else 0%nat) ->
  Forall (fun p => continuation p = awaiting) fl ->
  (same_deps (ui w) st = true -> settled env st) ->
  (isSubmitted st = true -> isLoading st = false) ->
  Inv env {| ui := useEffect_validity env (ui w) st; inflight := fl |}.
Proof.
  intros R L A S B.
  pose proof (useEffect_settles env (ui w) st S) as S'.
  destruct (useEffect_shape env (ui w) st) as [v E].
  split; simpl; auto; rewrite E in *; simpl; auto.
Qed.

Lemma emoji_rating_ok (i : nat) (item : Emoji) (st : State) :
  nth_error emojis i = Some item ->
  rating_ok (setSelectedRating (Some (value item)) st) = true.
Proof.
  destruct i as [|[|[|i]]]; simpl; intros H;
    try (injection H as <-; reflexivity).
  destruct i; discriminate.
Qed.

Lemma reset_invalid (st : State) :
  checkFormValidity (handleReset env st) = false.
Proof. unfold handleReset. destruct (component env); reflexivity. Qed.

Lemma reset_settled (st : State) : settled env (handleReset env st).
Proof.
  intros C. rewrite reset_invalid. unfold handleReset. now rewrite C.
Qed.

Lemma resume_isLoading (r : WebhookResponse) (st : State) :
  isLoading (handleSubmit_resume r st) = false.
Proof. reflexivity. Qed.

Lemma resume_deps (r : WebhookResponse) (st : State) :
  same_deps st (handleSubmit_resume r st) = true ->
  isFormValid (handleSubmit_resume r st) = isFormValid st.
Proof. intros _. unfold handleSubmit_resume. now destruct (success r). Qed.

Lemma resume_rating (r : WebhookResponse) (st : State) :
  rating_ok (handleSubmit_resume r st) = rating_ok st.
Proof. unfold handleSubmit_resume. now destruct (success r). Qed.

Theorem step_Inv (w : World) (e : Event) :
  Inv env w -> Inv env (fst (step env w e)).
Proof.
  intros I. destruct I as [R L A S B].
  unfold step. destruct (enabled env w e) eqn:En; [|now split].
  destruct e as [i | field v | field | now | | n o]; simpl handle.
  - (* ClickEmoji *)
    destruct (nth_error emojis i) as [item|] eqn:N; simpl;
      apply Inv_after_effect; simpl; auto;
      solve [ eapply emoji_rating_ok; eauto | apply settled_same_deps; auto ].
  - (* Change *)
    simpl. apply Inv_after_effect; destruct field; simpl; auto;
      apply settled_same_deps; auto.
  - (* Blur *)
    simpl. apply Inv_after_effect; simpl; auto;
      apply settled_same_deps; auto.
  - (* ClickSubmit *)
    simpl in En. apply submitEnabled_state in En as [Sub Load].
    rewrite Load in L. apply length_zero_iff_nil in L.
    destruct (handleSubmit_cases env now (ui w)) as [[C ->] | (r & Rt & C & ->)].
    + simpl. apply Inv_after_effect; simpl; auto;
        first [ rewrite L, Load; reflexivity | apply settled_same_deps; auto ].
    + destruct (submitToWebhook_cases env (feedbackData now r (ui w)))
        as [[U ->] | [U ->]]; simpl;
        apply Inv_after_effect; simpl; auto;
        first [ rewrite L; reflexivity
              | rewrite L; simpl; constructor; [reflexivity | constructor]
              | apply settled_same_deps; auto
              | rewrite Sub; discriminate ].
  - (* ClickReset *)
    simpl in En. assert (Sub : isSubmitted (ui w) = true).
    { apply (render_thankYou env). now destruct (render env (ui w)). }
    assert (E : isLoading (handleReset env (ui w)) = isLoading (ui w)).
    { unfold handleReset. destruct (component env); reflexivity. }
    simpl. apply Inv_after_effect; auto.
    + unfold handleReset. destruct (component env); reflexivity.
    + rewrite E. exact L.
    + intros _. apply reset_settled.
    + unfold handleReset. destruct (component env); discriminate.
  - (* Settle *)
    simpl in En. apply Nat.ltb_lt in En.
    destruct (isLoading (ui w)) eqn:Load; [|rewrite L in En; lia].
    destruct (inflight w) as [|p [|q fl]] eqn:F; try discriminate L.
    assert (n = 0%nat) by (simpl in En; lia). subst n. simpl.
    inversion A as [|? ? Ap _]; subst. rewrite Ap. unfold awaiting.
    apply Inv_after_effect; simpl; auto.
    + now rewrite resume_rating.
    + intros D. apply settled_same_deps with (a := ui w); auto.
      now apply resume_deps.
Qed.

Theorem reachable_Inv (w : World) : reachable env w -> Inv env w.
Proof.
  induction 1 as [|w e _ IH].
  - apply Inv_initial.
  - now apply step_Inv.
Qed.

End Invariant.

(** ** Runs *)

Section Runs.

Variable env : Env.

Lemma run_reachable (es : list Event) :
  forall w, reachable env w -> reachable env (fst (run env w es)).
Proof.
  induction es as [|e r IH]; intros w H; simpl; [exact H|].
  destruct (step env w e) as [w1 out1] eqn:E1.
  specialize (IH w1).
  destruct (run env w1 r) as [w2 out2] eqn:E2. simpl in *.
  apply IH. replace w1 with (fst (step env w e)) by now rewrite E1.
  now constructor.
Qed.

Lemma run_from_mount (es : list Event) :
  reachable env (fst (run env initialWorld es)).
Proof. apply run_reachable. constructor. Qed.

Lemma useEffect_isLoading (a b : State) :
  isLoading (useEffect_validity env a b) = isLoading b.
Proof. destruct (useEffect_shape env a b) as [v ->]. reflexivity. Qed.

Lemma useEffect_isSubmitted (a b : State) :
  isSubmitted (useEffect_validity env a b) = isSubmitted b.
Proof. destruct (useEffect_shape env a b) as [v ->]. reflexivity. Qed.

(** A click on a submit control that is loading does nothing. *)
Lemma loading_click_ignored (w : World) (now : jsstring) :
  isLoading (ui w) = true -> step env w (ClickSubmit now) = (w, []).
Proof.
  intros H. unfold step. simpl enabled.
  rewrite submitEnabled_spec, H, andb_false_r. reflexivity.
Qed.

(** While a request is pending no event of the user sends another
    one, ends the loading state or touches the pending request. *)
Lemma loading_user_step (w : World) (e : Event) :
  Inv env w -> isLoading (ui w) = true -> isUserEvent e = true ->
  snd (step env w e) = [] /\
  isLoading (ui (fst (step env w e))) = true /\
  inflight (fst (step env w e)) = inflight w.
Proof.
  intros I H U.
  destruct e as [i | field v | field | now | | n o]; try discriminate U.
  - unfold step. destruct (enabled env w (ClickEmoji i)); [|auto].
    simpl. destruct (nth_error emojis i); simpl;
      rewrite useEffect_isLoading; auto.
  - unfold step. destruct (enabled env w (Change field v)); [|auto].
    simpl. rewrite useEffect_isLoading. destruct field; auto.
  - unfold step. destruct (enabled env w (Blur field)); [|auto].
    simpl. rewrite useEffect_isLoading. auto.
  - rewrite loading_click_ignored; auto.
  - unfold step. destruct (enabled env w ClickReset) eqn:En; [|auto].
    simpl in En.
    assert (Sub : isSubmitted (ui w) = true).
    { apply (render_thankYou env). now destruct (render env (ui w)). }
    apply (inv_submitted _ _ I) in Sub. congruence.
Qed.

Lemma loading_user_run (es : list Event) :
  forall w, Inv env w -> isLoading (ui w) = true ->
  forallb isUserEvent es = true ->
  snd (run env w es) = [] /\
  isLoading (ui (fst (run env w es))) = true /\
  inflight (fst (run env w es)) = inflight w.
Proof.
  induction es as [|e r IH]; intros w I H U; simpl; [auto|].
  simpl in U. apply andb_true_iff in U as [Ue Ur].
  destruct (loading_user_step w e I H Ue) as (O1 & L1 & F1).
  pose proof (step_Inv env w e I) as I1.
  destruct (step env w e) as [w1 out1]. simpl in *.
  destruct (IH w1 I1 L1 Ur) as (O2 & L2 & F2).
  destruct (run env w1 r) as [w2 out2]. simpl in *.
  subst. rewrite F2, F1. auto.
Qed.

End Runs.

(** C1. While a submission is in flight ([isLoading] true) the submit
    action cannot be triggered again: at most one request is pending in
    any reachable world, a request is pending exactly while [isLoading]
    holds, a click on the submit control is then not dispatched, and no
    sequence of user events sends a second request or ends the wait. *)
Theorem inflight_blocks_resubmission :
  forall (env : Env) (w : World),
    reachable env w ->
    (List.length (inflight w) <= 1)%nat /\
    (isLoading (ui w) = true <-> List.length (inflight w) = 1%nat) /\
    (isLoading (ui w) = true ->
     submitEnabled (render env (ui w)) = false /\
     (forall now, step env w (ClickSubmit now) = (w, [])) /\
     (forall es, forallb isUserEvent es = true ->
        snd (run env w es) = [] /\
        isLoading (ui (fst (run env w es))) = true /\
        inflight (fst (run env w es)) = inflight w)).
Proof.
  intros env w H. pose proof (reachable_Inv env w H) as I.
  pose proof (inv_inflight _ _ I) as L.
  split; [|split].
  - rewrite L. destruct (isLoading (ui w)); lia.
  - rewrite L. destruct (isLoading (ui w)); split; congruence.
  - intros Load. split; [|split].
    + rewrite submitEnabled_spec, Load, andb_false_r. reflexivity.
    + intros now. now apply loading_click_ignored.
    + intros es U. now apply loading_user_run.
Qed.

Lemma inflight_blocks_resubmission_witness :
  isLoading (ui (submitting SentimentAnalysisForm)) = true /\
  List.length (inflight (submitting SentimentAnalysisForm)) = 1%nat /\
  snd (run (configured SentimentAnalysisForm) (submitting SentimentAnalysisForm)
         [ClickSubmit noon; ClickSubmit noon]) = [].
Proof.
  pose proof (inflight_blocks_resubmission (configured SentimentAnalysisForm)
                (submitting SentimentAnalysisForm)
                (run_from_mount _ _)) as (_ & [L _] & Q).
  assert (Load : isLoading (ui (submitting SentimentAnalysisForm)) = true)
    by (vm_compute; reflexivity).
  destruct (Q Load) as (_ & _ & R).
  split; [exact Load|]. split; [exact (L Load)|].
  exact (proj1 (R [ClickSubmit noon; ClickSubmit noon] eq_refl)).
Defined.

(** ** Clicking submit *)

Section Submit.

Variable env : Env.

Lemma rating_eqb_refl (a : option Z) : rating_eqb a a = true.
Proof. destruct a; simpl; [apply Z.eqb_refl | reflexivity]. Qed.

Lemma jsstring_eqb_refl (a : jsstring) : jsstring_eqb a a = true.
Proof.
  unfold jsstring_eqb. destruct (list_eq_dec N.eq_dec a a); congruence.
Qed.

Lemma same_deps_fields (a b : State) :
  selectedRating a = selectedRating b -> feedback a = feedback b ->
  name a = name b -> email a = email b -> same_deps a b = true.
Proof.
  intros R F N M. unfold same_deps. rewrite R, F, N, M.
  now rewrite rating_eqb_refl, !jsstring_eqb_refl.
Qed.

Lemma useEffect_same (a b : State) :
  same_deps a b = true -> useEffect_validity env a b = b.
Proof.
  intros H. unfold useEffect_validity. rewrite H. now destruct (component env).
Qed.

(** A click on an enabled submit control with data that does not
    pass: nothing is sent, the fields are marked touched and the
    errors are stored. *)
Lemma click_rejected (w : World) (now : jsstring) :
  passes (ui w) && truthy_number (selectedRating (ui w)) = false ->
  step env w (ClickSubmit now) =
    if submitEnabled (render env (ui w))
    then ({| ui := rejectedSubmit (ui w); inflight := inflight w |}, [])
    else (w, []).
Proof.
  intros P. unfold step. simpl enabled.
  destruct (submitEnabled (render env (ui w))); [|reflexivity].
  simpl handle.
  destruct (handleSubmit_cases env now (ui w)) as [[_ ->] | (r & _ & C & _)];
    [|congruence].
  simpl. rewrite useEffect_same; [reflexivity|].
  now apply same_deps_fields.
Qed.

(** A click on an enabled submit control with data that passes and a
    configured URL: one request is sent and becomes pending. *)
Lemma click_accepted (w : World) (now : jsstring) (r : Z) :
  submitEnabled (render env (ui w)) = true ->
  selectedRating (ui w) = Some r ->
  passes (ui w) = true ->
  truthy_number (Some r) = true ->
  truthy_opt_string (WEBHOOK_URL env) = true ->
  step env w (ClickSubmit now) =
    ({| ui := startedSubmit (ui w);
        inflight := inflight w ++
          [{| request := postOf env (feedbackData now r (ui w));
              continuation := awaiting |}] |},
     [postOf env (feedbackData now r (ui w))]).
Proof.
  intros En R P T U. unfold step. simpl enabled. rewrite En. simpl handle.
  destruct (handleSubmit_cases env now (ui w)) as [[C _] | (r' & R' & C & ->)].
  - rewrite R, P, T in C. discriminate.
  - rewrite R in R'. injection R' as <-.
    destruct (submitToWebhook_cases env (feedbackData now r (ui w)))
      as [[U' _] | [_ ->]]; [congruence|].
    simpl. rewrite useEffect_same; [reflexivity|].
    now apply same_deps_fields.
Qed.

(** The same click without a configured URL: nothing is sent and the
    configuration error is reported at once. *)
Lemma click_unconfigured (w : World) (now : jsstring) (r : Z) :
  submitEnabled (render env (ui w)) = true ->
  selectedRating (ui w) = Some r ->
  passes (ui w) = true ->
  truthy_number (Some r) = true ->
  truthy_opt_string (WEBHOOK_URL env) = false ->
  step env w (ClickSubmit now) =
    ({| ui := handleSubmit_resume configurationError (startedSubmit (ui w));
        inflight := inflight w |}, []).
Proof.
  intros En R P T U. unfold step. simpl enabled. rewrite En. simpl handle.
  destruct (handleSubmit_cases env now (ui w)) as [[C _] | (r' & R' & C & ->)].
  - rewrite R, P, T in C. discriminate.
  - rewrite R in R'. injection R' as <-.
    destruct (submitToWebhook_cases env (feedbackData now r (ui w)))
      as [[_ ->] | [U' _]]; [|congruence].
    simpl. rewrite useEffect_same; [reflexivity|].
    now apply same_deps_fields.
Qed.

End Submit.

(** C3. For every email string, validation reports "Please enter a valid
    email address" exactly when the string has non-zero trimmed length
    and is not of the form local-part@domain.tld; it accepts "a@b.co" and
    rejects "a@b", "a b@c.com" and "abc.com". *)
Theorem email_error_iff_outside_pattern :
  forall (st : State),
    (FormErrors.email (newErrors st) = Some (lit "Please enter a valid email address")
     <-> (List.length (trim (email st)) <> 0%nat /\ ~ email_pattern (email st))) /\
    (FormErrors.email (newErrors st) = Some (lit "Email is required")
     <-> List.length (trim (email st)) = 0%nat) /\
    (FormErrors.email (newErrors st) = None
     <-> (List.length (trim (email st)) <> 0%nat /\ email_pattern (email st))) /\
    FormErrors.email (newErrors (setEmail (lit "a@b.co") st)) = None /\
    FormErrors.email (newErrors (setEmail (lit "a@b") st)) =
      Some (lit "Please enter a valid email address") /\
    FormErrors.email (newErrors (setEmail (lit "a b@c.com") st)) =
      Some (lit "Please enter a valid email address") /\
    FormErrors.email (newErrors (setEmail (lit "abc.com") st)) =
      Some (lit "Please enter a valid email address").
Proof.
  intros st.
  assert (E : FormErrors.email (newErrors st) =
              if (List.length (trim (email st)) =? 0)%nat
              then Some (lit "Email is required")
              else if validateEmail (email st) then None
                   else Some (lit "Please enter a valid email address")).
  { simpl. rewrite truthy_string_length, negb_involutive.
    destruct (List.length (trim (email st)) =? 0)%nat; [reflexivity|].
    now destruct (validateEmail (email st)). }
  pose proof (validateEmail_spec (email st)) as V.
  split; [|split; [|split]].
  - rewrite E.
    destruct (Nat.eqb_spec (List.length (trim (email st))) 0) as [Z0|N0].
    + split; [discriminate | tauto].
    + destruct (validateEmail (email st)).
      * split; [discriminate|]. intros [_ N]. exfalso. apply N, V. reflexivity.
      * split; [|reflexivity]. intros _. split; [exact N0|].
        intros P. apply V in P. discriminate.
  - rewrite E.
    destruct (Nat.eqb_spec (List.length (trim (email st))) 0) as [Z0|N0].
    + tauto.
    + destruct (validateEmail (email st)); split; try discriminate; tauto.
  - rewrite E.
    destruct (Nat.eqb_spec (List.length (trim (email st))) 0) as [Z0|N0].
    + split; [discriminate | tauto].
    + destruct (validateEmail (email st)).
      * split; [|reflexivity]. intros _. split; [exact N0 | now apply V].
      * split; [discriminate|]. intros [_ P]. apply V in P. discriminate.
  - repeat split; vm_compute; reflexivity.
Qed.

(** C9. [checkFormValidity] does not depend on the touched flags and
    agrees with the full validation: on a state whose rating is unset or
    one of the picker, it returns true exactly when a rating is set and
    [validateForm] reports no error for feedback, name or email. *)
Theorem checkFormValidity_is_full_validation :
  forall (st : State),
    rating_ok st = true ->
    (forall t, checkFormValidity (setTouched t st) = checkFormValidity st) /\
    (forall t, fst (validateForm (setTouched t st)) = fst (validateForm st)) /\
    (checkFormValidity st = true <->
     isSet (selectedRating st) = true /\ fst (validateForm st) = true) /\
    (fst (validateForm st) = true <->
     FormErrors.feedback (errors (snd (validateForm st))) = None /\
     FormErrors.name (errors (snd (validateForm st))) = None /\
     FormErrors.email (errors (snd (validateForm st))) = None).
Proof.
  intros st R.
  split; [reflexivity|]. split; [reflexivity|]. split.
  - rewrite checkFormValidity_passes, validateForm_passes, (rating_ok_truthy st R).
    apply andb_true_iff.
  - unfold validateForm. cbv [fst snd]. rewrite keys_length_zero. reflexivity.
Qed.

Lemma checkFormValidity_is_full_validation_witness :
  checkFormValidity (ui (ready SentimentAnalysisForm)) = true /\
  fst (validateForm (ui (ready SentimentAnalysisForm))) = true.
Proof.
  assert (R : rating_ok (ui (ready SentimentAnalysisForm)) = true)
    by (vm_compute; reflexivity).
  pose proof (checkFormValidity_is_full_validation
                (ui (ready SentimentAnalysisForm)) R) as (_ & _ & [_ Q] & _).
  assert (V : fst (validateForm (ui (ready SentimentAnalysisForm))) = true)
    by (vm_compute; reflexivity).
  split; [apply Q; split; [vm_compute; reflexivity | exact V] | exact V].
Defined.

(** ** The webhook client *)

Section Webhook.

Lemma WEBHOOK_URL_truthy (env : Env) :
  truthy_opt_string (WEBHOOK_URL env) = truthy_opt_string (VITE_WEBHOOK_URL env).
Proof.
  unfold WEBHOOK_URL. destruct (component env); [|reflexivity].
  destruct (VITE_WEBHOOK_URL env) as [[|c s]|]; reflexivity.
Qed.

Lemma settle_ok (r : Response) :
  ok r = true ->
  submitToWebhook_settle (Fulfilled r) =
    {| success := true; message := Some (lit "Feedback submitted successfully") |}.
Proof. intros H. unfold submitToWebhook_settle. simpl. now rewrite H. Qed.

Lemma settle_not_ok (r : Response) :
  ok r = false ->
  submitToWebhook_settle (Fulfilled r) =
    {| success := false;
       message := Some (lit "Webhook error: " ++ number_toString (status r)
                          ++ lit " " ++ statusText r) |}.
Proof. intros H. unfold submitToWebhook_settle. simpl. now rewrite H. Qed.

Lemma settle_success (o : FetchOutcome) :
  success (submitToWebhook_settle o) = true <->
  exists r, o = Fulfilled r /\ ok r = true.
Proof.
  split.
  - destruct o as [r|e]; [|discriminate].
    destruct (ok r) eqn:K; [eauto|].
    rewrite (settle_not_ok r K). discriminate.
  - intros (r & -> & K). now rewrite (settle_ok r K).
Qed.

Lemma ok_range (r : Response) :
  ok r = true <-> 200 <= status r <= 299.
Proof. unfold ok. rewrite andb_true_iff, !N.leb_le. tauto. Qed.

Lemma or_string_nonempty (a : option jsstring) (b : jsstring) :
  b <> [] -> or_string a b <> [].
Proof.
  intros H. destruct a as [[|c s]|]; simpl; auto. discriminate.
Qed.

(** Every event but a dispatched submit click sends nothing; the click
    sends what [handleSubmit] awaits. *)
Lemma step_output (env : Env) (w : World) (e : Event) :
  snd (step env w e) =
    match e with
    | ClickSubmit now =>
        if submitEnabled (render env (ui w))
        then requests (snd (handleSubmit env now (ui w)))
        else []
    | _ => []
    end.
Proof.
  unfold step.
  destruct e as [i | field v | field | now | | n o]; simpl enabled;
    match goal with
    | |- context [if ?b then _ else _] => destruct b; [|reflexivity]
    end; simpl handle.
  - now destruct (nth_error emojis i).
  - reflexivity.
  - reflexivity.
  - destruct (handleSubmit env now (ui w)) as [st c]. now destruct c.
  - reflexivity.
  - now destruct (nth_error (inflight w) n).
Qed.

Lemma unconfigured_silent (env : Env) (es : list Event) :
  truthy_opt_string (VITE_WEBHOOK_URL env) = false ->
  forall w, snd (run env w es) = [].
Proof.
  intros U. induction es as [|e r IH]; intros w; simpl; [reflexivity|].
  pose proof (step_output env w e) as O.
  destruct (step env w e) as [w1 out1]. specialize (IH w1).
  destruct (run env w1 r) as [w2 out2]. simpl in *. subst out2.
  rewrite app_nil_r, O.
  destruct e; try reflexivity.
  destruct (submitEnabled (render env (ui w))); [|reflexivity].
  rewrite handleSubmit_requests, WEBHOOK_URL_truthy, U, andb_false_r.
  reflexivity.
Qed.

End Webhook.

(** C4. Once it has sent its request, the submit operation of the
    webhook client returns a success result exactly when the response
    status is in the range 200-299 ([response.ok]), whatever the body of
    the response; a response outside that range yields a failure whose
    message carries the status and the status text, a rejected fetch
    yields a failure with the fault's message, or with "Failed to submit
    feedback" when the fault is not an [Error]. *)
Theorem webhook_result_by_status :
  forall (env : Env) (data : FeedbackData.t) (req : Request)
         (k : FetchOutcome -> WebhookResponse),
    submitToWebhook env data = AwaitFetch req k ->
    (forall o, success (k o) = true <->
               exists r, o = Fulfilled r /\ 200 <= status r <= 299) /\
    (forall r, 200 <= status r <= 299 ->
       k (Fulfilled r) =
         {| success := true; message := Some (lit "Feedback submitted successfully") |}) /\
    (forall r, ~ 200 <= status r <= 299 ->
       k (Fulfilled r) =
         {| success := false;
            message := Some (lit "Webhook error: " ++ number_toString (status r)
                               ++ lit " " ++ statusText r) |}) /\
    (forall msg, k (Rejected (ErrorObject msg)) =
                   {| success := false; message := Some msg |}) /\
    k (Rejected NotAnError) =
      {| success := false; message := Some (lit "Failed to submit feedback") |} /\
    (forall r r', status r = status r' -> statusText r = statusText r' ->
                  k (Fulfilled r) = k (Fulfilled r')).
Proof.
  intros env data req k H.
  destruct (submitToWebhook_cases env data) as [[_ E] | [_ E]];
    rewrite E in H; [discriminate|].
  injection H as <- <-.
  split; [|split; [|split; [|split; [|split]]]].
  - intros o. rewrite settle_success. split; intros (r & -> & K); exists r;
      (split; [reflexivity | now apply ok_range]).
  - intros r K. apply settle_ok. now apply ok_range.
  - intros r K. apply settle_not_ok.
    destruct (ok r) eqn:O; [|reflexivity]. exfalso. apply K. now apply ok_range.
  - reflexivity.
  - reflexivity.
  - intros r r' S T. unfold submitToWebhook_settle, submitToWebhook_try, ok.
    now rewrite S, T.
Qed.

Lemma webhook_result_by_status_witness :
  success (submitToWebhook_settle http200) = true /\
  submitToWebhook_settle http500 =
    {| success := false;
       message := Some (lit "Webhook error: 500 Internal Server Error") |}.
Proof.
  pose proof (webhook_result_by_status (configured SentimentAnalysisForm)
                (feedbackData noon 3 (ui (ready SentimentAnalysisForm)))
                _ _ eq_refl) as (S & _ & F & _).
  split.
  - apply S. exists {| status := 200; statusText := lit "OK"; responseBody := [] |}.
    split; [reflexivity | simpl; lia].
  - exact (F {| status := 500; statusText := lit "Internal Server Error";
                responseBody := [] |} ltac:(simpl; lia)).
Defined.

(** C5. Without a configured endpoint URL (the variable undefined or
    empty) every call of the submit operation returns at once the failure
    "Webhook configuration error. Please try again later." and sends
    nothing; no run of the form sends a request, and a submission of
    valid data leaves the form rendered, not loading and not submitted,
    with that message as its submit error. *)
Theorem unconfigured_webhook_fails_without_io :
  forall (env : Env),
    truthy_opt_string (VITE_WEBHOOK_URL env) = false ->
    (forall data,
       submitToWebhook env data =
         Return {| success := false;
                   message := Some (lit "Webhook configuration error. Please try again later.") |} /\
       requests (submitToWebhook env data) = []) /\
    (forall w es, snd (run env w es) = []) /\
    (forall w now,
       submitEnabled (render env (ui w)) = true ->
       passes (ui w) = true ->
       exists w',
         step env w (ClickSubmit now) = (w', []) /\
         inflight w' = inflight w /\
         submitError (ui w') = lit "Webhook configuration error. Please try again later." /\
         isLoading (ui w') = false /\
         isSubmitted (ui w') = false /\
         showsSubmitControl (render env (ui w')) = true /\
         selectedRating (ui w') = selectedRating (ui w) /\
         feedback (ui w') = feedback (ui w) /\
         name (ui w') = name (ui w) /\
         email (ui w') = email (ui w)).
Proof.
  intros env U.
  assert (U' : truthy_opt_string (WEBHOOK_URL env) = false)
    by now rewrite WEBHOOK_URL_truthy.
  split; [|split].
  - intros data.
    destruct (submitToWebhook_cases env data) as [[_ E] | [T _]]; [|congruence].
    rewrite E. split; reflexivity.
  - intros w es. now apply unconfigured_silent.
  - intros w now En P.
    pose proof En as En'.
    rewrite submitEnabled_spec, !andb_true_iff in En'.
    destruct En' as [[Shown _] _].
    pose proof Shown as Shown'.
    rewrite showsSubmitControl_spec, !andb_true_iff, negb_true_iff in Shown'.
    destruct Shown' as [[[[Sub T] _] _] _].
    destruct (selectedRating (ui w)) as [r|] eqn:Rt; [|discriminate T].
    eexists. split; [apply (click_unconfigured env w now r); auto|].
    simpl. rewrite Rt. repeat split; auto.
    rewrite showsSubmitControl_spec in Shown |- *. simpl. rewrite Rt.
    rewrite Sub in *. rewrite Rt in Shown. exact Shown.
Qed.

Lemma unconfigured_webhook_fails_without_io_witness :
  snd (run (unconfigured PlainForm) initialWorld
         (fillIn greatService ++ [ClickSubmit noon])) = [] /\
  requests (submitToWebhook (unconfigured SentimentAnalysisForm)
              (feedbackData noon 3 initialState)) = [].
Proof.
  split.
  - exact (proj1 (proj2 (unconfigured_webhook_fails_without_io
                           (unconfigured PlainForm) eq_refl)) _ _).
  - exact (proj2 (proj1 (unconfigured_webhook_fails_without_io
                           (unconfigured SentimentAnalysisForm) eq_refl) _)).
Defined.

(** ** Visibility *)

(** C6 (as the code has it). While the submission has not succeeded
    ([isSubmitted] false), on a state whose rating is unset or one of
    the picker: the rating picker is visible; the feedback text area is
    visible exactly when a rating is set; the contact fields exactly
    when moreover the trimmed feedback is non-empty; the submit control
    is rendered exactly when moreover the trimmed name and email are
    non-empty. Once the submission has succeeded only the thank-you
    confirmation is rendered. *)
Theorem visibility_before_success :
  forall (env : Env) (st : State),
    rating_ok st = true ->
    (isSubmitted st = false ->
     showsRatingPicker (render env st) = true /\
     (showsFeedbackArea (render env st) = true <-> selectedRating st <> None) /\
     (showsContactFields (render env st) = true <->
      selectedRating st <> None /\ trim (feedback st) <> []) /\
     (showsSubmitControl (render env st) = true <->
      selectedRating st <> None /\ trim (feedback st) <> [] /\
      trim (name st) <> [] /\ trim (email st) <> [])) /\
    (isSubmitted st = true ->
     render env st = ThankYou /\
     showsRatingPicker (render env st) = false /\
     showsFeedbackArea (render env st) = false /\
     showsContactFields (render env st) = false /\
     showsSubmitControl (render env st) = false).
Proof.
  intros env st R.
  assert (S : forall r : option Z, isSet r = true <-> r <> None).
  { intros [z|]; simpl; split; congruence. }
  assert (T : forall s : jsstring, truthy_string s = true <-> s <> []).
  { intros [|c s]; simpl; split; congruence. }
  split; intros Sub.
  - rewrite showsRatingPicker_spec, showsFeedbackArea_spec,
      showsContactFields_spec, showsSubmitControl_spec, Sub,
      (rating_ok_truthy st R).
    simpl negb. rewrite !andb_true_l, !andb_true_iff, !S, !T. tauto.
  - rewrite (render_submitted env st Sub). repeat split.
Qed.

Lemma visibility_before_success_witness :
  showsFeedbackArea (render (configured SentimentAnalysisForm)
                       (ui (ready SentimentAnalysisForm))) = true /\
  showsSubmitControl (render (configured SentimentAnalysisForm)
                        (ui (ready SentimentAnalysisForm))) = true.
Proof.
  assert (R : rating_ok (ui (ready SentimentAnalysisForm)) = true)
    by (vm_compute; reflexivity).
  pose proof (visibility_before_success (configured SentimentAnalysisForm)
                (ui (ready SentimentAnalysisForm)) R) as [V _].
  destruct (V eq_refl) as (_ & [_ F] & _ & [_ B]).
  split.
  - apply F. vm_compute. discriminate.
  - apply B. repeat split; vm_compute; discriminate.
Defined.

(** C6 as stated fails after a successful submission: the rating is
    still set, yet neither the rating picker nor the feedback text area
    is rendered. *)
Lemma picker_hidden_after_success :
  reachable (configured SentimentAnalysisForm) (succeeded SentimentAnalysisForm) /\
  selectedRating (ui (succeeded SentimentAnalysisForm)) = Some 3%Z /\
  render (configured SentimentAnalysisForm) (ui (succeeded SentimentAnalysisForm))
    = ThankYou /\
  showsRatingPicker
    (render (configured SentimentAnalysisForm) (ui (succeeded SentimentAnalysisForm)))
    = false /\
  showsFeedbackArea
    (render (configured SentimentAnalysisForm) (ui (succeeded SentimentAnalysisForm)))
    = false.
Proof.
  split; [apply run_from_mount|].
  repeat split; vm_compute; reflexivity.
Qed.

(** ** Reset *)

(** C8. Reset returns every field to its initial value: rating unset,
    feedback, name and email empty, touched flags false, errors and
    failure message cleared, submitted flag false; only the rating
    picker remains visible. After a successful submission the reset
    button is the one control rendered, and clicking it leaves a form
    that is not loading and has no request pending. *)
Theorem reset_restores_initial_form :
  forall (env : Env),
    (forall st,
       selectedRating (handleReset env st) = None /\
       feedback (handleReset env st) = [] /\
       name (handleReset env st) = [] /\
       email (handleReset env st) = [] /\
       touched (handleReset env st) = Touched.none /\
       errors (handleReset env st) = FormErrors.empty /\
       submitError (handleReset env st) = [] /\
       isSubmitted (handleReset env st) = false /\
       (component env = SentimentAnalysisForm ->
        isFormValid (handleReset env st) = false) /\
       showsRatingPicker (render env (handleReset env st)) = true /\
       showsFeedbackArea (render env (handleReset env st)) = false /\
       showsContactFields (render env (handleReset env st)) = false /\
       showsSubmitControl (render env (handleReset env st)) = false) /\
    (forall w, reachable env w -> isSubmitted (ui w) = true ->
       enabled env w ClickReset = true /\
       snd (step env w ClickReset) = [] /\
       inflight (fst (step env w ClickReset)) = [] /\
       isLoading (ui (fst (step env w ClickReset))) = false /\
       render env (ui (fst (step env w ClickReset))) = render env initialState /\
       selectedRating (ui (fst (step env w ClickReset))) = None /\
       feedback (ui (fst (step env w ClickReset))) = [] /\
       name (ui (fst (step env w ClickReset))) = [] /\
       email (ui (fst (step env w ClickReset))) = [] /\
       touched (ui (fst (step env w ClickReset))) = Touched.none /\
       errors (ui (fst (step env w ClickReset))) = FormErrors.empty /\
       submitError (ui (fst (step env w ClickReset))) = [] /\
       isSubmitted (ui (fst (step env w ClickReset))) = false).
Proof.
  intros env.
  assert (F : forall s, handleReset env s =
                setIsFormValid (isFormValid (handleReset env s))
                  (setIsLoading (isLoading s) initialState)).
  { intros s. unfold handleReset. destruct (component env); reflexivity. }
  split.
  - intros st.
    repeat (split; [solve [rewrite F; reflexivity]|]).
    split; [intros C; unfold handleReset; now rewrite C|].
    repeat (split; [solve [rewrite F; reflexivity]|]).
    rewrite F. reflexivity.
  - intros w H Sub.
    pose proof (reachable_Inv env w H) as I.
    pose proof (inv_submitted _ _ I Sub) as Load.
    pose proof (inv_inflight _ _ I) as L. rewrite Load in L.
    apply length_zero_iff_nil in L.
    assert (En : enabled env w ClickReset = true).
    { simpl. now rewrite (render_submitted env _ Sub). }
    split; [exact En|].
    unfold step. rewrite En. simpl.
    destruct (useEffect_shape env (ui w) (handleReset env (ui w))) as [v ->].
    rewrite (F (ui w)), Load, L. repeat split.
Qed.

(** ** A submission from click to settlement *)

Section Submission.

Variable env : Env.

(** What a click that sent a request tells about the world it met. *)
Lemma click_sent (w w1 : World) (now : jsstring) (req : Request) :
  Inv env w ->
  step env w (ClickSubmit now) = (w1, [req]) ->
  exists r,
    selectedRating (ui w) = Some r /\
    truthy_number (Some r) = true /\
    submitEnabled (render env (ui w)) = true /\
    passes (ui w) = true /\
    truthy_opt_string (WEBHOOK_URL env) = true /\
    req = postOf env (feedbackData now r (ui w)) /\
    w1 = {| ui := startedSubmit (ui w);
            inflight := [{| request := req; continuation := awaiting |}] |}.
Proof.
  intros I H.
  destruct (submitEnabled (render env (ui w))) eqn:En.
  - destruct (passes (ui w) && truthy_number (selectedRating (ui w))) eqn:C.
    + apply andb_true_iff in C as [P T].
      destruct (selectedRating (ui w)) as [r|] eqn:R; [|discriminate T].
      destruct (truthy_opt_string (WEBHOOK_URL env)) eqn:U.
      * rewrite (click_accepted env w now r En R P T U) in H.
        injection H as <- <-.
        pose proof (inv_inflight _ _ I) as L.
        destruct (submitEnabled_state env _ En) as [_ Load].
        rewrite Load in L. apply length_zero_iff_nil in L.
        exists r. rewrite L. simpl. auto 10.
      * rewrite (click_unconfigured env w now r En R P T U) in H. discriminate.
    + rewrite (click_rejected env w now C), En in H. discriminate.
  - unfold step in H. simpl enabled in H. rewrite En in H. discriminate.
Qed.

(** The settlement of the one pending request. *)
Lemma settle_pending (st : State) (req : Request) (o : FetchOutcome) :
  step env {| ui := st; inflight := [{| request := req; continuation := awaiting |}] |}
       (Settle 0 o) =
    ({| ui := handleSubmit_resume (submitToWebhook_settle o) st; inflight := [] |}, []).
Proof.
  unfold step. simpl. rewrite useEffect_same; [reflexivity|].
  unfold awaiting, handleSubmit_resume.
  destruct (success (submitToWebhook_settle o)); now apply same_deps_fields.
Qed.

Lemma rating_ok_values (st : State) (r : Z) :
  rating_ok st = true -> selectedRating st = Some r ->
  (r = 1 \/ r = 2 \/ r = 3)%Z.
Proof.
  unfold rating_ok. intros H E. rewrite E in H.
  change (((1 =? r) || ((2 =? r) || ((3 =? r) || false)))%Z = true) in H.
  rewrite !orb_true_iff in H.
  destruct H as [H | [H | [H | H]]]; try discriminate;
    apply Z.eqb_eq in H; auto.
Qed.

End Submission.

(** C7. When a submission resolves with a webhook failure, the form is
    in the failed state: not loading, not submitted, nothing pending,
    with a non-empty failure message, which for a response outside
    200-299 is "Webhook error: <status> <status text>" and so contains
    the status. The continuation leaves rating, feedback, name, email,
    touched flags and errors of whatever state it meets unchanged; all
    sections stay rendered, the submit control is enabled and the message
    is shown, and another click on submit sends a fresh request with the
    same data and the new timestamp. *)
Theorem failure_keeps_input_and_allows_retry :
  forall (env : Env) (w w1 : World) (now : jsstring) (req : Request),
    reachable env w ->
    step env w (ClickSubmit now) = (w1, [req]) ->
    forall o, success (submitToWebhook_settle o) = false ->
    (forall cur,
       selectedRating (awaiting o cur) = selectedRating cur /\
       feedback (awaiting o cur) = feedback cur /\
       name (awaiting o cur) = name cur /\
       email (awaiting o cur) = email cur /\
       touched (awaiting o cur) = touched cur /\
       errors (awaiting o cur) = errors cur /\
       isSubmitted (awaiting o cur) = isSubmitted cur /\
       isLoading (awaiting o cur) = false) /\
    exists w2,
      step env w1 (Settle 0 o) = (w2, []) /\
      inflight w2 = [] /\
      isLoading (ui w2) = false /\
      isSubmitted (ui w2) = false /\
      submitError (ui w2) =
        or_string (message (submitToWebhook_settle o)) (lit "Failed to submit feedback") /\
      List.length (submitError (ui w2)) <> 0%nat /\
      (forall r, o = Fulfilled r ->
         submitError (ui w2) =
           lit "Webhook error: " ++ number_toString (status r) ++ lit " " ++ statusText r /\
         contains (number_toString (status r)) (submitError (ui w2))) /\
      selectedRating (ui w2) = selectedRating (ui w) /\
      feedback (ui w2) = feedback (ui w) /\
      name (ui w2) = name (ui w) /\
      email (ui w2) = email (ui w) /\
      showsRatingPicker (render env (ui w2)) = true /\
      showsFeedbackArea (render env (ui w2)) = true /\
      showsContactFields (render env (ui w2)) = true /\
      submitEnabled (render env (ui w2)) = true /\
      (exists f, render env (ui w2) = Form f /\
                 submitErrorShown f = Some (submitError (ui w2))) /\
      (forall later, exists w3 req',
         step env w2 (ClickSubmit later) = (w3, [req']) /\
         url req' = url req /\
         FeedbackData.rating (payload req') = FeedbackData.rating (payload req) /\
         FeedbackData.feedback (payload req') = FeedbackData.feedback (payload req) /\
         FeedbackData.name (payload req') = FeedbackData.name (payload req) /\
         FeedbackData.email (payload req') = FeedbackData.email (payload req) /\
         FeedbackData.timestamp (payload req') = later).
Proof.
  intros env w w1 now req H Sent o Fail.
  pose proof (reachable_Inv env w H) as I.
  destruct (click_sent env w w1 now req I Sent) as (r & R & T & En & P & U & -> & ->).
  assert (A : forall cur, awaiting o cur =
                setIsLoading false
                  (setSubmitError
                     (or_string (message (submitToWebhook_settle o))
                        (lit "Failed to submit feedback")) cur)).
  { intros cur. unfold awaiting, handleSubmit_resume. now rewrite Fail. }
  split; [intros cur; rewrite A; repeat split|].
  eexists. split; [apply settle_pending|].
  fold (awaiting o (startedSubmit (ui w))). rewrite A.
  set (msg := or_string (message (submitToWebhook_settle o))
                (lit "Failed to submit feedback")).
  assert (M : msg <> []) by (apply or_string_nonempty; discriminate).
  destruct (submitEnabled_state env _ En) as [Sub Load].
  pose proof En as En'.
  rewrite submitEnabled_spec, !andb_true_iff in En'.
  destruct En' as [[Shown _] Valid].
  pose proof Shown as Shown'.
  rewrite showsSubmitControl_spec, !andb_true_iff in Shown'.
  destruct Shown' as [[[[_ Tr] Tf] Tn] Te].
  assert (En2 : submitEnabled
                  (render env (setIsLoading false (setSubmitError msg (startedSubmit (ui w)))))
                = true).
  { rewrite submitEnabled_spec, showsSubmitControl_spec. simpl.
    rewrite Sub, Tr, Tf, Tn, Te. simpl. exact Valid. }
  simpl. repeat split; auto.
  - destruct msg; [congruence | discriminate].
  - subst o. unfold msg. rewrite settle_not_ok; [reflexivity|].
    destruct (ok r0) eqn:K; [|reflexivity].
    rewrite (settle_ok r0 K) in Fail. discriminate.
  - subst o. unfold msg. rewrite settle_not_ok.
    + exists (lit "Webhook error: "), (lit " " ++ statusText r0). reflexivity.
    + destruct (ok r0) eqn:K; [|reflexivity].
      rewrite (settle_ok r0 K) in Fail. discriminate.
  - rewrite showsRatingPicker_spec. simpl. now rewrite Sub.
  - rewrite showsFeedbackArea_spec. simpl. now rewrite Sub, Tr.
  - rewrite showsContactFields_spec. simpl. now rewrite Sub, Tr, Tf.
  - unfold render. simpl. rewrite Sub, Tr, Tf, Tn, Te.
    eexists. split; [reflexivity|]. simpl.
    destruct msg; [congruence | reflexivity].
  - intros later.
    eexists. eexists. split.
    + apply (click_accepted env _ later r); auto.
    + simpl. repeat split.
Qed.

Lemma failure_keeps_input_and_allows_retry_witness :
  submitError (ui (failed SentimentAnalysisForm)) =
    lit "Webhook error: 500 Internal Server Error" /\
  feedback (ui (failed SentimentAnalysisForm)) = greatService /\
  submitEnabled (render (configured SentimentAnalysisForm)
                   (ui (failed SentimentAnalysisForm))) = true.
Proof.
  pose proof (failure_keeps_input_and_allows_retry
                (configured SentimentAnalysisForm)
                (ready SentimentAnalysisForm)
                (fst (step (configured SentimentAnalysisForm)
                        (ready SentimentAnalysisForm) (ClickSubmit noon)))
                noon
                (postOf (configured SentimentAnalysisForm)
                   (feedbackData noon 3 (ui (ready SentimentAnalysisForm))))
                (run_from_mount _ _)
                ltac:(vm_compute; reflexivity)
                http500 eq_refl) as [_ (w2 & S & _ & _ & _ & E & _ & _ & _ & F & _ & _ & _ & _ & _ & B & _)].
  assert (W : w2 = failed SentimentAnalysisForm).
  { change (failed SentimentAnalysisForm) with
      (fst (step (configured SentimentAnalysisForm)
              (fst (step (configured SentimentAnalysisForm)
                      (ready SentimentAnalysisForm) (ClickSubmit noon)))
              (Settle 0 http500))).
    now rewrite S. }
  subst w2. split; [exact E|]. split; [exact F | exact B].
Defined.

(** C10. Every request the form sends is a POST whose payload holds the
    selected rating, the feedback, name and email with leading and
    trailing whitespace removed, and the clock reading
    [new Date().toISOString()] of the click. The email was validated
    untrimmed, so for it trimming changes nothing; the posted feedback
    and name can differ from what was typed. *)
Theorem payload_holds_trimmed_fields :
  (forall (env : Env) (w w1 : World) (now : jsstring) (req : Request),
     reachable env w ->
     step env w (ClickSubmit now) = (w1, [req]) ->
     exists r,
       selectedRating (ui w) = Some r /\ (r = 1 \/ r = 2 \/ r = 3)%Z /\
       fst (validateForm (ui w)) = true /\
       method req = lit "POST" /\
       headers req = [(lit "Content-Type", lit "application/json")] /\
       Some (url req) = WEBHOOK_URL env /\
       body req =
         JSON_stringify
           {| FeedbackData.rating := r;
              FeedbackData.feedback := trim (feedback (ui w));
              FeedbackData.name := trim (name (ui w));
              FeedbackData.email := trim (email (ui w));
              FeedbackData.timestamp := now |} /\
       validateEmail (email (ui w)) = true /\
       trim (email (ui w)) = email (ui w)) /\
  (exists w1 req,
     reachable (configured SentimentAnalysisForm) (padded SentimentAnalysisForm) /\
     step (configured SentimentAnalysisForm) (padded SentimentAnalysisForm)
          (ClickSubmit noon) = (w1, [req]) /\
     feedback (ui (padded SentimentAnalysisForm)) = lit "  Great service, very helpful  " /\
     FeedbackData.feedback (payload req) = lit "Great service, very helpful" /\
     name (ui (padded SentimentAnalysisForm)) = lit " Acme Inc " /\
     FeedbackData.name (payload req) = lit "Acme Inc").
Proof.
  split.
  - intros env w w1 now req H Sent.
    pose proof (reachable_Inv env w H) as I.
    destruct (click_sent env w w1 now req I Sent) as (r & R & T & En & P & U & -> & _).
    exists r. split; [exact R|].
    split; [exact (rating_ok_values _ r (inv_rating _ _ I) R)|].
    split; [now rewrite validateForm_passes|].
    assert (V : validateEmail (email (ui w)) = true).
    { unfold passes in P. now apply andb_true_iff in P as [_ V]. }
    repeat split; auto.
    + simpl. destruct (WEBHOOK_URL env) as [[|c s]|]; try discriminate U; reflexivity.
    + now apply validateEmail_trim.
  - eexists. eexists. split; [apply run_from_mount|].
    split.
    + apply (click_accepted (configured SentimentAnalysisForm)
               (padded SentimentAnalysisForm) noon 3);
        vm_compute; reflexivity.
    + repeat split; vm_compute; reflexivity.
Qed.

(** * Further properties of the code *)

(** ** More on trimming *)

Section TrimMore.

Lemma trimStart_head (s : jsstring) :
  match trimStart s with
  | [] => True
  | c :: _ => isWhiteSpace c = false
  end.
Proof.
  induction s as [|c r IH]; simpl; [exact I|].
  destruct (isWhiteSpace c) eqn:W; [exact IH | exact W].
Qed.

Lemma trimStart_fixed (s : jsstring) :
  match s with [] => True | c :: _ => isWhiteSpace c = false end ->
  trimStart s = s.
Proof. destruct s as [|c r]; simpl; [reflexivity|]. now intros ->. Qed.

Lemma trimStart_idempotent (s : jsstring) :
  trimStart (trimStart s) = trimStart s.
Proof. apply trimStart_fixed, trimStart_head. Qed.

(** The last code unit of what [trimStart] leaves is the last one of
    its argument. *)
Lemma trimStart_rev_head (s : jsstring) :
  match rev (trimStart s) with
  | [] => True
  | c :: _ => exists r, rev s = c :: r
  end.
Proof.
  destruct (trimStart_suffix s) as (b & E & _).
  destruct (rev (trimStart s)) as [|c r] eqn:R; [exact I|].
  apply (f_equal (@rev char16)) in E. rewrite rev_app_distr, R in E.
  exists (r ++ rev b). exact E.
Qed.

Lemma trim_idempotent (s : jsstring) : trim (trim s) = trim s.
Proof.
  unfold trim, trimEnd.
  set (t := trimStart s). set (u := trimStart (rev t)).
  assert (H : trimStart (rev u) = rev u).
  { apply trimStart_fixed.
    pose proof (trimStart_rev_head (rev t)) as L. fold u in L.
    destruct (rev u) as [|c r]; [exact I|].
    destruct L as [r' E]. rewrite rev_involutive in E.
    pose proof (trimStart_head s) as Hd. fold t in Hd.
    rewrite E in Hd. exact Hd. }
  rewrite H, rev_involutive. unfold u. now rewrite trimStart_idempotent.
Qed.

Lemma trimStart_length (s : jsstring) :
  (List.length (trimStart s) <= List.length s)%nat.
Proof.
  induction s as [|c r IH]; simpl; [lia|].
  destruct (isWhiteSpace c); simpl; lia.
Qed.

Lemma trim_length (s : jsstring) :
  (List.length (trim s) <= List.length s)%nat.
Proof.
  unfold trim, trimEnd. rewrite length_rev.
  pose proof (trimStart_length (rev (trimStart s))) as A.
  pose proof (trimStart_length s) as B.
  rewrite length_rev in A. lia.
Qed.

End TrimMore.

(** ** Further invariants *)

Section Invariant2.

Variable env : Env.

(** The four ways a click on submit can go. *)
Lemma click_cases (w : World) (now : jsstring) :
  (submitEnabled (render env (ui w)) = false /\
   step env w (ClickSubmit now) = (w, []))
  \/
  (submitEnabled (render env (ui w)) = true /\ passes (ui w) = false /\
   step env w (ClickSubmit now) =
     ({| ui := rejectedSubmit (ui w); inflight := inflight w |}, []))
  \/
  (exists r,
     submitEnabled (render env (ui w)) = true /\ passes (ui w) = true /\
     selectedRating (ui w) = Some r /\ truthy_number (Some r) = true /\
     ((truthy_opt_string (WEBHOOK_URL env) = false /\
       step env w (ClickSubmit now) =
         ({| ui := handleSubmit_resume configurationError (startedSubmit (ui w));
             inflight := inflight w |}, []))
      \/
      (truthy_opt_string (WEBHOOK_URL env) = true /\
       step env w (ClickSubmit now) =
         ({| ui := startedSubmit (ui w);
             inflight := inflight w ++
               [{| request := postOf env (feedbackData now r (ui w));
                   continuation := awaiting |}] |},
          [postOf env (feedbackData now r (ui w))])))).
Proof.
  destruct (submitEnabled (render env (ui w))) eqn:En.
  - right. pose proof En as En'.
    rewrite submitEnabled_spec, showsSubmitControl_spec, !andb_true_iff in En'.
    destruct En' as [[[[[[_ T] _] _] _] _] _].
    destruct (selectedRating (ui w)) as [r|] eqn:R; [|discriminate T].
    destruct (passes (ui w)) eqn:P.
    + right. exists r. repeat split; auto.
      destruct (truthy_opt_string (WEBHOOK_URL env)) eqn:U; [right | left];
        (split; [reflexivity|]).
      * now apply (click_accepted env w now r).
      * now apply (click_unconfigured env w now r).
    + left. repeat split; auto.
      rewrite click_rejected, En; [reflexivity|]. now rewrite P.
  - left. split; [reflexivity|].
    unfold step. simpl enabled. now rewrite En.
Qed.

Lemma newErrors_sound (st : State) (field : Field) :
  soundError (fieldError field (newErrors st)).
Proof.
  destruct field; simpl;
    repeat match goal with
           | |- context [if ?b then _ else _] => destruct b
           end; simpl; try exact I; discriminate.
Qed.

Lemma touch_not_none (field : Field) (t : Touched.t) :
  touch field t <> Touched.none.
Proof. destruct field; discriminate. Qed.

Lemma Inv2_initial : Inv2 initialWorld.
Proof.
  split; simpl; auto;
    first [ intros []; exact I | intros [H | H]; discriminate H ].
Qed.

Lemma Inv2_after_effect (w : World) (st : State) (fl : list Pending) :
  (selectedRating st = None -> feedback st = [] /\ name st = [] /\ email st = []) ->
  (touched st = Touched.none -> errors st = FormErrors.empty) ->
  (forall field, soundError (fieldError field (errors st))) ->
  (isLoading st = true \/ isSubmitted st = true -> submitError st = []) ->
  Inv2 {| ui := useEffect_validity env (ui w) st; inflight := fl |}.
Proof.
  intros A B C D.
  destruct (useEffect_shape env (ui w) st) as [v E].
  split; simpl; rewrite E; simpl; auto.
Qed.

Lemma showsField_rated (field : Field) (st : State) :
  showsField field (render env st) = true ->
  truthy_number (selectedRating st) = true /\ isSubmitted st = false.
Proof.
  destruct field; simpl;
    rewrite ?showsFeedbackArea_spec, ?showsContactFields_spec,
      !andb_true_iff, negb_true_iff; tauto.
Qed.

Ltac close_inv2 :=
  simpl; auto;
  try discriminate;
  try apply newErrors_sound;
  try (intros []; exact I);
  try (intros [H | H]; discriminate H).

Theorem step_Inv2 (w : World) (e : Event) :
  Inv env w -> Inv2 w -> Inv2 (fst (step env w e)).
Proof.
  intros I0 [A B C D].
  destruct e as [i | field v | field | now | | n o].
  - (* ClickEmoji *)
    unfold step. destruct (enabled env w (ClickEmoji i)); [|now split].
    simpl handle. destruct (nth_error emojis i) as [item|]; simpl;
      apply Inv2_after_effect; close_inv2.
  - (* Change *)
    unfold step. destruct (enabled env w (Change field v)) eqn:En; [|now split].
    simpl in En. apply showsField_rated in En as [T _].
    simpl. apply Inv2_after_effect; destruct field; close_inv2;
      intros N; rewrite N in T; discriminate T.
  - (* Blur *)
    unfold step. destruct (enabled env w (Blur field)); [|now split].
    simpl. apply Inv2_after_effect; close_inv2.
    intros N. now apply touch_not_none in N.
  - (* ClickSubmit *)
    destruct (click_cases w now)
      as [[_ ->] | [(En & _ & ->) | (r & En & _ & R & _ & [[_ ->] | [_ ->]])]];
      simpl; [now split | | |];
      destruct (submitEnabled_state env _ En) as [Sub Load];
      split; close_inv2;
      rewrite ?Sub, ?Load; intros [H | H]; discriminate H.
  - (* ClickReset *)
    unfold step. destruct (enabled env w ClickReset); [|now split].
    simpl. apply Inv2_after_effect;
      unfold handleReset; destruct (component env); close_inv2.
  - (* Settle *)
    unfold step. destruct (enabled env w (Settle n o)) eqn:En; [|now split].
    simpl in En. apply Nat.ltb_lt in En. simpl handle.
    pose proof (inv_inflight _ _ I0) as L.
    destruct (isLoading (ui w)) eqn:Load; [|rewrite L in En; lia].
    destruct (inflight w) as [|p [|q fl]] eqn:F; try discriminate L.
    assert (n = 0%nat) by (simpl in En; lia). subst n.
    pose proof (inv_awaiting _ _ I0) as Aw. rewrite F in Aw.
    inversion Aw as [|? ? Ap _]; subst.
    simpl. rewrite Ap. unfold awaiting, handleSubmit_resume.
    assert (Sub : isSubmitted (ui w) = false).
    { destruct (isSubmitted (ui w)) eqn:S; [|reflexivity].
      pose proof (inv_submitted _ _ I0 S). congruence. }
    destruct (success (submitToWebhook_settle o));
      apply Inv2_after_effect; close_inv2.
    rewrite Sub. intros [H | H]; discriminate H.
Qed.

Theorem reachable_Inv2 (w : World) : reachable env w -> Inv2 w.
Proof.
  induction 1 as [|w e H IH].
  - apply Inv2_initial.
  - apply step_Inv2; [now apply reachable_Inv | exact IH].
Qed.

End Invariant2.

(** ** The submission state machine, continued *)

Section Machine.

Variable env : Env.

Lemma submitted_idle (w : World) :
  Inv env w -> isSubmitted (ui w) = true ->
  isLoading (ui w) = false /\ inflight w = [].
Proof.
  intros I Sub. pose proof (inv_submitted _ _ I Sub) as Load.
  pose proof (inv_inflight _ _ I) as L. rewrite Load in L.
  split; [exact Load | now apply length_zero_iff_nil].
Qed.

Lemma submitted_ignores (w : World) (e : Event) :
  Inv env w -> isSubmitted (ui w) = true -> e <> ClickReset ->
  step env w e = (w, []).
Proof.
  intros I Sub N. destruct (submitted_idle w I Sub) as [Load Fl].
  unfold step.
  assert (En : enabled env w e = false); [|now rewrite En].
  destruct e as [i | field v | field | now | | n o]; simpl;
    rewrite ?(render_submitted env _ Sub); try reflexivity.
  - now destruct field.
  - now destruct field.
  - congruence.
  - rewrite Fl. now destruct n.
Qed.

(** One step: what is sent and what is pending afterwards. *)
Lemma step_balance (w : World) (e : Event) :
  Inv env w ->
  (List.length (snd (step env w e)) + List.length (inflight w)
   <= List.length (inflight (fst (step env w e)))
      + (if isUserEvent e then 0 else 1))%nat.
Proof.
  intros I.
  destruct e as [i | field v | field | now | | n o].
  - unfold step. destruct (enabled env w (ClickEmoji i)); simpl; [|lia].
    destruct (nth_error emojis i); simpl; lia.
  - unfold step. destruct (enabled env w (Change field v)); simpl; lia.
  - unfold step. destruct (enabled env w (Blur field)); simpl; lia.
  - destruct (click_cases env w now)
      as [[_ ->] | [(_ & _ & ->) | (r & _ & _ & _ & _ & [[_ ->] | [_ ->]])]];
      simpl; rewrite ?length_app; simpl; lia.
  - unfold step. destruct (enabled env w ClickReset); simpl; lia.
  - unfold step. destruct (enabled env w (Settle n o)) eqn:En; simpl; [|lia].
    simpl in En. apply Nat.ltb_lt in En.
    destruct (nth_error (inflight w) n) as [p|] eqn:N; simpl.
    + pose proof (inv_inflight _ _ I) as L.
      destruct (isLoading (ui w)); [|lia].
      destruct (inflight w) as [|q [|q' fl]]; try discriminate L.
      destruct n; simpl; lia.
    + lia.
Qed.

Lemma run_balance (es : list Event) :
  forall w, Inv env w ->
  (List.length (snd (run env w es)) + List.length (inflight w)
   <= settlements es + 1)%nat.
Proof.
  induction es as [|e r IH]; intros w I; simpl.
  - pose proof (inv_inflight _ _ I) as L. rewrite L.
    destruct (isLoading (ui w)); unfold settlements; simpl; lia.
  - pose proof (step_balance w e I) as B.
    pose proof (step_Inv env w e I) as I1.
    destruct (step env w e) as [w1 out1]. simpl in B, I1.
    specialize (IH w1 I1).
    destruct (run env w1 r) as [w2 out2]. simpl in *.
    rewrite length_app. unfold settlements in *. simpl.
    destruct (isUserEvent e); simpl; lia.
Qed.

End Machine.

(** X1. After a successful submission the form is terminal until reset:
    the thank-you screen is rendered, nothing is pending, and every event
    but the click on "Submit Another Response" changes nothing and sends
    nothing, however many of them follow. *)
Theorem succeeded_is_terminal_until_reset :
  forall (env : Env) (w : World),
    reachable env w -> isSubmitted (ui w) = true ->
    render env (ui w) = ThankYou /\
    isLoading (ui w) = false /\
    inflight w = [] /\
    (forall e, e <> ClickReset -> step env w e = (w, [])) /\
    (forall es, ~ In ClickReset es -> run env w es = (w, [])).
Proof.
  intros env w H Sub. pose proof (reachable_Inv env w H) as I.
  destruct (submitted_idle env w I Sub) as [Load Fl].
  split; [now apply render_submitted|].
  split; [exact Load|]. split; [exact Fl|].
  assert (S : forall e, e <> ClickReset -> step env w e = (w, []))
    by (intros e N; now apply submitted_ignores).
  split; [exact S|].
  induction es as [|e r IH]; intros N; simpl; [reflexivity|].
  rewrite S by (intros ->; apply N; now left).
  rewrite IH by (intros X; apply N; now right). reflexivity.
Qed.

Lemma succeeded_is_terminal_until_reset_witness :
  run (configured SentimentAnalysisForm) (succeeded SentimentAnalysisForm)
      [ClickEmoji 0; Change Feedback (lit "more"); ClickSubmit noon; Settle 0 http500]
  = (succeeded SentimentAnalysisForm, []).
Proof.
  pose proof (succeeded_is_terminal_until_reset (configured SentimentAnalysisForm)
                (succeeded SentimentAnalysisForm) (run_from_mount _ _) eq_refl)
    as (_ & _ & _ & _ & R).
  apply R. simpl. intros [X | [X | [X | [X | []]]]]; discriminate X.
Defined.

(** X2. When the webhook call of a submission resolves with success, the
    continuation sets the submitted flag and ends the loading state, and
    keeps the rating, the texts, the touched flags and the errors of
    whatever state it meets; right after the click the thank-you screen
    is rendered, nothing is pending and no failure message is left. *)
Theorem success_shows_thank_you :
  forall (env : Env) (w w1 : World) (now : jsstring) (req : Request),
    reachable env w ->
    step env w (ClickSubmit now) = (w1, [req]) ->
    forall o, success (submitToWebhook_settle o) = true ->
    (forall cur,
       isSubmitted (awaiting o cur) = true /\
       isLoading (awaiting o cur) = false /\
       selectedRating (awaiting o cur) = selectedRating cur /\
       feedback (awaiting o cur) = feedback cur /\
       name (awaiting o cur) = name cur /\
       email (awaiting o cur) = email cur /\
       touched (awaiting o cur) = touched cur /\
       errors (awaiting o cur) = errors cur /\
       submitError (awaiting o cur) = submitError cur) /\
    exists w2,
      step env w1 (Settle 0 o) = (w2, []) /\
      render env (ui w2) = ThankYou /\
      isSubmitted (ui w2) = true /\
      isLoading (ui w2) = false /\
      inflight w2 = [] /\
      submitError (ui w2) = [] /\
      selectedRating (ui w2) = selectedRating (ui w) /\
      feedback (ui w2) = feedback (ui w) /\
      name (ui w2) = name (ui w) /\
      email (ui w2) = email (ui w).
Proof.
  intros env w w1 now req H Sent o Ok.
  pose proof (reachable_Inv env w H) as I.
  destruct (click_sent env w w1 now req I Sent) as (r & R & T & En & P & U & -> & ->).
  assert (A : forall cur, awaiting o cur = setIsLoading false (setIsSubmitted true cur)).
  { intros cur. unfold awaiting, handleSubmit_resume. now rewrite Ok. }
  split; [intros cur; rewrite A; repeat split|].
  eexists. split; [apply settle_pending|].
  fold (awaiting o (startedSubmit (ui w))). rewrite A. simpl. repeat split.
Qed.

Lemma success_shows_thank_you_witness :
  render (configured PlainForm) (ui (succeeded PlainForm)) = ThankYou /\
  feedback (ui (succeeded PlainForm)) = greatService.
Proof.
  pose proof (success_shows_thank_you
                (configured PlainForm) (ready PlainForm)
                (fst (step (configured PlainForm) (ready PlainForm) (ClickSubmit noon)))
                noon
                (postOf (configured PlainForm)
                   (feedbackData noon 3 (ui (ready PlainForm))))
                (run_from_mount _ _)
                ltac:(vm_compute; reflexivity)
                http200 eq_refl) as [_ (w2 & S & V & _ & _ & _ & _ & _ & F & _)].
  assert (W : w2 = succeeded PlainForm).
  { change (succeeded PlainForm) with
      (fst (step (configured PlainForm)
              (fst (step (configured PlainForm) (ready PlainForm) (ClickSubmit noon)))
              (Settle 0 http200))).
    now rewrite S. }
  subst w2. split; [exact V | exact F].
Defined.

(** X3. In any run from the mounted form the number of requests sent is
    at most one more than the number of settlements: a new request is
    only ever sent after the previous one has settled. *)
Theorem requests_bounded_by_settlements :
  forall (env : Env) (es : list Event),
    (List.length (snd (run env initialWorld es)) <= settlements es + 1)%nat.
Proof.
  intros env es.
  pose proof (run_balance env es initialWorld (Inv_initial env)) as B.
  simpl in B. lia.
Qed.

(** ** What reaches the webhook *)

Section Requests.

Variable env : Env.

Lemma configured_url :
  truthy_opt_string (WEBHOOK_URL env) = true ->
  VITE_WEBHOOK_URL env = Some (or_string (WEBHOOK_URL env) []) /\
  or_string (WEBHOOK_URL env) [] <> [].
Proof.
  unfold WEBHOOK_URL. destruct (component env);
    destruct (VITE_WEBHOOK_URL env) as [[|c s]|]; simpl;
    try discriminate; intros _; split; (reflexivity || discriminate).
Qed.

Lemma passes_payload (now : jsstring) (r : Z) (st : State) :
  passes st = true -> (r = 1 \/ r = 2 \/ r = 3)%Z ->
  validPayload (feedbackData now r st).
Proof.
  unfold passes. rewrite !andb_true_iff.
  intros [[[F N] M] V] R.
  unfold validPayload. simpl.
  split; [exact R|].
  split; [now apply Nat.leb_le|].
  split; [apply trim_idempotent|].
  split; [destruct (trim (name st)); [discriminate N | discriminate]|].
  split; [apply trim_idempotent|].
  rewrite (validateEmail_trim _ V). now apply validateEmail_spec.
Qed.

Lemma step_wellFormed (w : World) (e : Event) :
  Inv env w -> Forall (wellFormed env) (snd (step env w e)).
Proof.
  intros I.
  destruct e as [i | field v | field | now | | n o];
    try (rewrite step_output; constructor).
  destruct (click_cases env w now)
    as [[_ ->] | [(_ & _ & ->) | (r & _ & P & R & _ & [[_ ->] | [U ->]])]];
    simpl; try constructor; [|constructor].
  destruct (configured_url U) as [V N].
  unfold wellFormed. simpl.
  split; [reflexivity|]. split; [reflexivity|].
  split; [exact V|]. split; [exact N|].
  apply passes_payload; [exact P|].
  exact (rating_ok_values _ r (inv_rating _ _ I) R).
Qed.

Lemma run_wellFormed (es : list Event) :
  forall w, Inv env w -> Forall (wellFormed env) (snd (run env w es)).
Proof.
  induction es as [|e r IH]; intros w I; simpl; [constructor|].
  pose proof (step_wellFormed w e I) as S.
  pose proof (step_Inv env w e I) as I1.
  destruct (step env w e) as [w1 out1]. simpl in S, I1.
  specialize (IH w1 I1).
  destruct (run env w1 r) as [w2 out2]. simpl in *.
  apply Forall_app. now split.
Qed.

End Requests.

(** X4. Every request sent in any run from the mounted form is a POST
    with the JSON content type to the configured URL, and its payload
    satisfies the validation rules: a rating of 1, 2 or 3, a feedback of
    at least 10 code units and a non-empty name, both without surrounding
    whitespace, and an email of the form local-part@domain.tld. *)
Theorem every_request_is_well_formed :
  forall (env : Env) (es : list Event),
    Forall (wellFormed env) (snd (run env initialWorld es)).
Proof.
  intros env es. apply run_wellFormed, Inv_initial.
Qed.

(** ** Validation and the view *)

Section ErrorsShown.

Variable env : Env.

Lemma shownError_sound (e : option jsstring) :
  soundError e -> shownError true e = e.
Proof.
  destruct e as [[|c s]|]; simpl; [congruence | reflexivity | reflexivity].
Qed.

Lemma shownError_some (t : bool) (e : option jsstring) (m : jsstring) :
  soundError e ->
  (shownError t e = Some m <-> t = true /\ e = Some m).
Proof.
  intros S. destruct t.
  - rewrite (shownError_sound e S). tauto.
  - unfold shownError. simpl. split; [discriminate | intros [X _]; discriminate X].
Qed.

(** The displayed error of a field, from the state. *)
Lemma errorShown_spec (field : Field) (st : State) :
  errorShown field (render env st) =
    if showsField field (render env st)
    then shownError (fieldTouched field (touched st)) (fieldError field (errors st))
    else None.
Proof.
  unfold render. destruct (isSubmitted st); [now destruct field|].
  destruct field; reflexivity.
Qed.

Lemma showsField_fields (field : Field) (a b : State) :
  isSubmitted a = isSubmitted b -> selectedRating a = selectedRating b ->
  feedback a = feedback b ->
  showsField field (render env a) = showsField field (render env b).
Proof.
  intros S R F. destruct field; simpl;
    rewrite ?showsFeedbackArea_spec, ?showsContactFields_spec, S, R, ?F;
    reflexivity.
Qed.


Lemma blur_step (w : World) (field : Field) :
  enabled env w (Blur field) = true ->
  step env w (Blur field) =
    ({| ui := setErrors (newErrors (ui w))
                (setTouched (touch field (touched (ui w))) (ui w));
        inflight := inflight w |}, []).
Proof.
  intros En. unfold step. rewrite En. simpl.
  rewrite useEffect_same; [reflexivity|]. now apply same_deps_fields.
Qed.

End ErrorsShown.

(** X5. When a shown field loses focus, the whole form is validated on
    its current contents: the stored errors become the validation
    result, the field is marked touched while the other flags keep their
    value, the texts are left alone, nothing is sent, and the error
    displayed under that field is exactly its current validation
    error. *)
Theorem blur_shows_current_error :
  forall (env : Env) (w : World) (field : Field),
    enabled env w (Blur field) = true ->
    snd (step env w (Blur field)) = [] /\
    inflight (fst (step env w (Blur field))) = inflight w /\
    errors (ui (fst (step env w (Blur field)))) = newErrors (ui w) /\
    fieldTouched field (touched (ui (fst (step env w (Blur field))))) = true /\
    (forall other, other <> field ->
       fieldTouched other (touched (ui (fst (step env w (Blur field))))) =
       fieldTouched other (touched (ui w))) /\
    feedback (ui (fst (step env w (Blur field)))) = feedback (ui w) /\
    name (ui (fst (step env w (Blur field)))) = name (ui w) /\
    email (ui (fst (step env w (Blur field)))) = email (ui w) /\
    errorShown field (render env (ui (fst (step env w (Blur field))))) =
      fieldError field (newErrors (ui w)).
Proof.
  intros env w field En. rewrite (blur_step env w field En). simpl.
  repeat split.
  - now destruct field.
  - intros other N. destruct field, other; simpl; congruence.
  - rewrite errorShown_spec.
    rewrite (showsField_fields env field _ (ui w)) by reflexivity.
    simpl in En. rewrite En. simpl.
    replace (fieldTouched field (touch field (touched (ui w)))) with true
      by now destruct field.
    apply shownError_sound, newErrors_sound.
Qed.

Lemma blur_shows_current_error_witness :
  errorShown Feedback
    (render (configured PlainForm)
       (ui (fst (step (configured PlainForm) (tooShort PlainForm) (Blur Feedback)))))
  = Some (lit "Feedback must be at least 10 characters").
Proof.
  pose proof (blur_shows_current_error (configured PlainForm) (tooShort PlainForm)
                Feedback eq_refl) as (_ & _ & _ & _ & _ & _ & _ & _ & E).
  exact E.
Defined.



(** X8. Typing, choosing a rating and the settlement of a request never
    change the stored errors or the touched flags: only a blur, a click
    on submit or a reset do. An error on display therefore stays as it
    is while the user corrects the field, until the next blur. *)
Theorem errors_change_only_on_validation :
  forall (env : Env) (w : World) (e : Event),
    reachable env w ->
    revalidates e = false ->
    errors (ui (fst (step env w e))) = errors (ui w) /\
    touched (ui (fst (step env w e))) = touched (ui w).
Proof.
  intros env w e H R. pose proof (reachable_Inv env w H) as I.
  unfold step. destruct (enabled env w e) eqn:En; [|auto].
  destruct e as [i | field v | field | now | | n o]; try discriminate R;
    simpl handle.
  - destruct (nth_error emojis i); simpl;
      match goal with
      | |- context [useEffect_validity env ?a ?b] =>
          destruct (useEffect_shape env a b) as [v ->]
      end; auto.
  - simpl. match goal with
           | |- context [useEffect_validity env ?a ?b] =>
               destruct (useEffect_shape env a b) as [v' ->]
           end. now destruct field.
  - simpl in En. apply Nat.ltb_lt in En.
    pose proof (inv_inflight _ _ I) as L.
    pose proof (inv_awaiting _ _ I) as Aw.
    destruct (inflight w) as [|p [|q fl]]; simpl in *;
      destruct (isLoading (ui w)); try discriminate L; try lia.
    assert (n = 0%nat) by lia. subst n. simpl.
    inversion Aw as [|? ? Ap _]; subst. rewrite Ap.
    match goal with
    | |- context [useEffect_validity env ?a ?b] =>
        destruct (useEffect_shape env a b) as [v ->]
    end.
    unfold awaiting, handleSubmit_resume.
    now destruct (success (submitToWebhook_settle o)).
Qed.

Lemma errors_change_only_on_validation_witness :
  errors (ui (fst (step (configured PlainForm)
                     (fst (step (configured PlainForm) (tooShort PlainForm) (Blur Feedback)))
                     (Change Feedback greatService))))
  = newErrors (ui (tooShort PlainForm)).
Proof.
  exact (proj1 (errors_change_only_on_validation (configured PlainForm)
                  (fst (step (configured PlainForm) (tooShort PlainForm) (Blur Feedback)))
                  (Change Feedback greatService)
                  (reach_step _ _ _ (run_from_mount _ _)) eq_refl)).
Defined.

(** X9. In every reachable state no error is stored while no field has
    been touched, every stored message is non-empty, and an error is
    displayed under a field exactly when the field is rendered, touched
    and has a stored error, the displayed text being the stored one. *)
Theorem displayed_errors_are_touched_stored_errors :
  forall (env : Env) (w : World),
    reachable env w ->
    (touched (ui w) = Touched.none -> errors (ui w) = FormErrors.empty) /\
    (forall field m, fieldError field (errors (ui w)) = Some m -> m <> []) /\
    (forall field m,
       errorShown field (render env (ui w)) = Some m <->
       showsField field (render env (ui w)) = true /\
       fieldTouched field (touched (ui w)) = true /\
       fieldError field (errors (ui w)) = Some m).
Proof.
  intros env w H. pose proof (reachable_Inv2 env w H) as [A B C D].
  split; [exact B|]. split.
  - intros field m E. specialize (C field). now rewrite E in C.
  - intros field m. rewrite errorShown_spec.
    destruct (showsField field (render env (ui w))).
    + rewrite (shownError_some _ _ m (C field)). tauto.
    + split; [discriminate | intros [X _]; discriminate X].
Qed.

Lemma displayed_errors_are_touched_stored_errors_witness :
  errors (ui (ready SentimentAnalysisForm)) = FormErrors.empty.
Proof.
  exact (proj1 (displayed_errors_are_touched_stored_errors
                  (configured SentimentAnalysisForm) (ready SentimentAnalysisForm)
                  (run_from_mount _ _)) eq_refl).
Defined.

(** X10. A failure message is only ever present in an idle form: in
    every reachable state that is loading or submitted the stored
    failure message is empty, so the message is never displayed next to
    the spinner, and what is displayed is the stored non-empty message. *)
Theorem failure_message_only_when_idle :
  forall (env : Env) (w : World),
    reachable env w ->
    (isLoading (ui w) = true \/ isSubmitted (ui w) = true -> submitError (ui w) = []) /\
    (forall f m,
       render env (ui w) = Form f -> submitErrorShown f = Some m ->
       m = submitError (ui w) /\ m <> [] /\
       isLoading (ui w) = false /\
       exists b, submitControl f = Some b /\ spinner b = false).
Proof.
  intros env w H. pose proof (reachable_Inv2 env w H) as [A B C D].
  split; [exact D|].
  intros f m R S.
  unfold render in R. destruct (isSubmitted (ui w)) eqn:Sub; [discriminate R|].
  injection R as <-. simpl in S |- *.
  destruct (truthy_number (selectedRating (ui w))
            && truthy_string (trim (feedback (ui w)))
            && truthy_string (trim (name (ui w)))
            && truthy_string (trim (email (ui w)))); simpl in S; [|discriminate S].
  destruct (submitError (ui w)) as [|c s] eqn:E; simpl in S; [discriminate S|].
  injection S as <-.
  assert (Load : isLoading (ui w) = false).
  { destruct (isLoading (ui w)); [|reflexivity].
    discriminate (D (or_introl eq_refl)). }
  rewrite Load. repeat split; try discriminate.
  eexists. split; reflexivity.
Qed.

Lemma failure_message_only_when_idle_witness :
  submitError (ui (submitting PlainForm)) = [].
Proof.
  exact (proj1 (failure_message_only_when_idle (configured PlainForm)
                  (submitting PlainForm) (run_from_mount _ _))
           (or_introl eq_refl)).
Defined.

(** ** The email rule, continued *)

Section EmailMore.

Lemma plain_no_at (s : jsstring) :
  Forall (fun c => isWhiteSpace c = false /\ c <> 64) s ->
  count_occ N.eq_dec s 64 = 0%nat.
Proof.
  intros H. apply count_occ_not_In. intros I.
  rewrite Forall_forall in H. destruct (H 64 I) as [_ N]. now apply N.
Qed.

Lemma plain_length (s : jsstring) : plain_part s -> (1 <= List.length s)%nat.
Proof. intros [N _]. destruct s; [congruence | simpl; lia]. Qed.

End EmailMore.

(** X11. Every string [validateEmail] accepts holds exactly one ['@'],
    no whitespace at all and at least five code units, and is left
    unchanged by [trim]. *)
Theorem accepted_email_shape :
  forall (s : jsstring),
    validateEmail s = true ->
    count_occ N.eq_dec s 64 = 1%nat /\
    (5 <= List.length s)%nat /\
    Forall (fun c => isWhiteSpace c = false) s /\
    trim s = s.
Proof.
  intros s V.
  split; [|split; [|split]].
  - apply validateEmail_spec in V.
    destruct V as (l & d & t & -> & [_ Al] & [_ Ad] & [_ At]).
    rewrite count_occ_app. simpl. rewrite count_occ_app. simpl.
    rewrite (plain_no_at l Al), (plain_no_at d Ad), (plain_no_at t At).
    reflexivity.
  - apply validateEmail_spec in V.
    destruct V as (l & d & t & -> & Pl & Pd & Pt).
    apply plain_length in Pl, Pd, Pt.
    rewrite length_app. simpl. rewrite length_app. simpl.
    unfold char16 in *. lia.
  - now apply validateEmail_clean.
  - now apply validateEmail_trim.
Qed.

Lemma accepted_email_shape_witness :
  count_occ N.eq_dec (lit "a@b.co") 64 = 1%nat.
Proof.
  exact (proj1 (accepted_email_shape (lit "a@b.co") eq_refl)).
Defined.

(** X12. The email is validated as typed, not as sent: an email with
    leading or trailing whitespace always gets an email error ("Email is
    required" when nothing else is there, "Please enter a valid email
    address" otherwise), validation fails, and in
    [SentimentAnalysisForm.tsx] the form is not valid, even when the
    trimmed text would be accepted. *)
Theorem padded_email_is_rejected :
  forall (st : State),
    trim (email st) <> email st ->
    FormErrors.email (newErrors st) =
      Some (if (List.length (trim (email st)) =? 0)%nat
            then lit "Email is required"
            else lit "Please enter a valid email address") /\
    fst (validateForm st) = false /\
    checkFormValidity st = false.
Proof.
  intros st N.
  assert (V : validateEmail (email st) = false).
  { destruct (validateEmail (email st)) eqn:V; [|reflexivity].
    exfalso. apply N. now apply validateEmail_trim. }
  split; [|split].
  - simpl. rewrite truthy_string_length, negb_involutive, V.
    now destruct (List.length (trim (email st)) =? 0)%nat.
  - rewrite validateForm_passes. unfold passes. rewrite V. apply andb_false_r.
  - rewrite checkFormValidity_passes. unfold passes. rewrite V.
    now rewrite andb_false_r, andb_false_r.
Qed.

Lemma padded_email_is_rejected_witness :
  validateEmail (trim (lit "a@acme.com ")) = true /\
  FormErrors.email (newErrors (setEmail (lit "a@acme.com ") (ui (ready PlainForm)))) =
    Some (lit "Please enter a valid email address").
Proof.
  split; [vm_compute; reflexivity|].
  exact (proj1 (padded_email_is_rejected
                  (setEmail (lit "a@acme.com ") (ui (ready PlainForm)))
                  ltac:(vm_compute; discriminate))).
Defined.

(** ** Progress lamps, helper text and icons *)

(** X13. In every reachable state an unset rating means that feedback,
    name and email are all empty. On the rendered form the three progress
    lamps then decide the visibility: the feedback area shows with the
    first lamp, the contact fields with the first two, the submit control
    with all three, and the second or third lamp is never lit without
    the first. *)
Theorem progress_lamps_decide_visibility :
  forall (env : Env) (w : World),
    reachable env w ->
    (selectedRating (ui w) = None ->
     feedback (ui w) = [] /\ name (ui w) = [] /\ email (ui w) = []) /\
    (forall f l1 l2 l3,
       render env (ui w) = Form f -> progress f = (l1, l2, l3) ->
       feedbackArea f = l1 /\
       contactFields f = l1 && l2 /\
       showsSubmitControl (Form f) = l1 && l2 && l3 /\
       (l2 = true -> l1 = true) /\
       (l3 = true -> l1 = true)).
Proof.
  intros env w H.
  pose proof (reachable_Inv env w H) as I.
  pose proof (reachable_Inv2 env w H) as [A _ _ _].
  split; [exact A|].
  intros f l1 l2 l3 R P.
  pose proof (rating_ok_truthy _ (inv_rating _ _ I)) as T.
  unfold render in R. destruct (isSubmitted (ui w)); [discriminate R|].
  injection R as <-. simpl in P |- *. rewrite T in *.
  injection P as <- <- <-.
  split; [reflexivity|]. split; [reflexivity|]. split.
  - destruct (selectedRating (ui w)); simpl;
      destruct (truthy_string (trim (feedback (ui w))));
      destruct (truthy_string (trim (name (ui w))));
      destruct (truthy_string (trim (email (ui w)))); reflexivity.
  - destruct (selectedRating (ui w)) as [r|]; simpl; [auto|].
    destruct (A eq_refl) as (F & N & _). rewrite F, N. simpl.
    split; discriminate.
Qed.

Lemma progress_lamps_decide_visibility_witness :
  showsSubmitControl (render (configured PlainForm) (ui (ready PlainForm))) = true.
Proof.
  destruct (proj2 (progress_lamps_decide_visibility (configured PlainForm)
                     (ready PlainForm) (run_from_mount _ _))
              _ true true true eq_refl eq_refl) as (_ & _ & S & _).
  exact S.
Defined.

(** X15. [renderEmojiSVG] yields an icon exactly for the ratings 1, 2
    and 3: for any other rating the emoji looked up is undefined and
    reading its colour throws, so the [default] branch of the [switch]
    never produces an icon. For a rating of the picker the result is the
    emoji with that value, whose label is the one shown under the
    picker, with the frown for 1, the meh for 2 and the grin for 3; every
    button of the picker renders. *)
Theorem renderEmojiSVG_only_for_picker_values :
  forall (rating : Z),
    (renderEmojiSVG rating = None <-> ~ (1 <= rating <= 3)%Z) /\
    (forall icon e,
       renderEmojiSVG rating = Some (icon, e) ->
       In e emojis /\ value e = rating /\
       labelOf rating = Some (label e) /\
       (icon = faFaceFrown <-> rating = 1%Z) /\
       (icon = faFaceMeh <-> rating = 2%Z) /\
       (icon = faFaceGrinBeam <-> rating = 3%Z)) /\
    (forall item, In item emojis ->
       exists icon, renderEmojiSVG (value item) = Some (icon, item)).
Proof.
  intros rating.
  assert (Out : ~ (1 <= rating <= 3)%Z -> renderEmojiSVG rating = None).
  { intros N. unfold renderEmojiSVG, emojiAt.
    destruct (Z.leb_spec 1 rating) as [Ge|Lt]; [|reflexivity].
    assert (L : (List.length emojis <= Z.to_nat (rating - 1))%nat)
      by (simpl; lia).
    apply nth_error_None in L. now rewrite L. }
  assert (Cases : (1 <= rating <= 3)%Z -> rating = 1%Z \/ rating = 2%Z \/ rating = 3%Z)
    by lia.
  split; [|split].
  - split; [|exact Out].
    intros E R. destruct (Cases R) as [-> | [-> | ->]]; discriminate E.
  - intros icon e E.
    destruct (Z.le_gt_cases 1 rating) as [Ge|Lt];
      [destruct (Z.le_gt_cases rating 3) as [Le|Gt]|].
    + destruct (Cases (conj Ge Le)) as [-> | [-> | ->]];
        injection E as <- <-; simpl;
        repeat split; auto; try discriminate; try lia.
    + rewrite Out in E by lia. discriminate E.
    + rewrite Out in E by lia. discriminate E.
  - intros item [<- | [<- | [<- | []]]]; eexists; reflexivity.
Qed.

(** ** When the submit control is enabled *)

Section Enabled.

Lemma passes_present (st : State) :
  passes st = true ->
  truthy_string (trim (feedback st)) = true /\
  truthy_string (trim (name st)) = true /\
  truthy_string (trim (email st)) = true.
Proof.
  unfold passes. rewrite !andb_true_iff. intros [[[F N] M] _].
  repeat split; auto.
  apply Nat.leb_le in F. destruct (trim (feedback st)); [simpl in F; lia | reflexivity].
Qed.

Lemma truthy_string_true (s : jsstring) : truthy_string s = true <-> s <> [].
Proof. destruct s; simpl; split; congruence. Qed.

End Enabled.

(** X17. A click on the i-th button of the picker sets the rating to
    i + 1 and shows that emoji's label and the feedback area; it leaves
    the texts, the errors and the touched flags alone and sends nothing.
    On the freshly mounted form the feedback area is all it reveals. *)
Theorem selecting_a_rating_reveals_feedback :
  forall (env : Env) (w : World) (i : nat) (item : Emoji),
    isSubmitted (ui w) = false ->
    nth_error emojis i = Some item ->
    value item = (Z.of_nat i + 1)%Z /\
    snd (step env w (ClickEmoji i)) = [] /\
    inflight (fst (step env w (ClickEmoji i))) = inflight w /\
    selectedRating (ui (fst (step env w (ClickEmoji i)))) = Some (Z.of_nat i + 1)%Z /\
    feedback (ui (fst (step env w (ClickEmoji i)))) = feedback (ui w) /\
    name (ui (fst (step env w (ClickEmoji i)))) = name (ui w) /\
    email (ui (fst (step env w (ClickEmoji i)))) = email (ui w) /\
    errors (ui (fst (step env w (ClickEmoji i)))) = errors (ui w) /\
    touched (ui (fst (step env w (ClickEmoji i)))) = touched (ui w) /\
    showsFeedbackArea (render env (ui (fst (step env w (ClickEmoji i))))) = true /\
    (exists f, render env (ui (fst (step env w (ClickEmoji i)))) = Form f /\
               ratingLabel f = Some (label item)) /\
    (w = initialWorld ->
     showsContactFields (render env (ui (fst (step env w (ClickEmoji i))))) = false /\
     showsSubmitControl (render env (ui (fst (step env w (ClickEmoji i))))) = false).
Proof.
  intros env w i item Sub N.
  assert (V : value item = (Z.of_nat i + 1)%Z).
  { destruct i as [|[|[|i]]]; simpl in N;
      try (injection N as <-; reflexivity).
    destruct i; discriminate N. }
  assert (L : labelOf (value item) = Some (label item)).
  { destruct i as [|[|[|i]]]; simpl in N;
      try (injection N as <-; reflexivity).
    destruct i; discriminate N. }
  assert (T : truthy_number (Some (value item)) = true).
  { rewrite V. simpl. destruct (Z.eqb_spec (Z.of_nat i + 1) 0); [lia | reflexivity]. }
  assert (En : enabled env w (ClickEmoji i) = true).
  { simpl. rewrite showsRatingPicker_spec, Sub. simpl.
    apply Nat.ltb_lt.
    assert (X : nth_error emojis i <> None) by now rewrite N.
    now apply nth_error_Some in X. }
  unfold step. rewrite En. simpl handle. rewrite N. simpl.
  destruct (useEffect_shape env (ui w)
              (setSelectedRating (Some (value item)) (ui w))) as [v ->].
  split; [exact V|]. rewrite <- V.
  set (st' := setIsFormValid v (setSelectedRating (Some (value item)) (ui w))).
  assert (R : selectedRating st' = Some (value item)) by reflexivity.
  assert (S' : isSubmitted st' = false) by exact Sub.
  do 8 (split; [reflexivity|]).
  split; [now rewrite showsFeedbackArea_spec, S', R, T|].
  split.
  - unfold render. rewrite S'. eexists. split; [reflexivity|].
    cbn [ratingLabel]. now rewrite R, T, L.
  - intros W. subst w. split.
    + rewrite showsContactFields_spec, S', R, T. reflexivity.
    + rewrite showsSubmitControl_spec, S', R, T. reflexivity.
Qed.

Lemma selecting_a_rating_reveals_feedback_witness :
  selectedRating (ui (fst (step (configured PlainForm) initialWorld (ClickEmoji 2))))
  = Some 3%Z.
Proof.
  destruct (selecting_a_rating_reveals_feedback (configured PlainForm) initialWorld 2
              {| value := 3; label := lit "Satisfied" |} eq_refl eq_refl)
    as (_ & _ & _ & S & _).
  exact S.
Defined.

(** * The page with its effect pending *)

Section PageMachine.

Variable env : Env.

Lemma Core_initial : Core initialWorld.
Proof. split; simpl; auto; discriminate. Qed.

Lemma Inv_Core (w : World) : Inv env w -> Core w.
Proof. intros [R L A _ B]. now split. Qed.

(** Writing [isFormValid] touches none of the core invariants. *)
Lemma Core_landEffect (w : World) (rendered : State) :
  Core w ->
  Core {| ui := landEffect env rendered (ui w); inflight := inflight w |}.
Proof.
  intros [R L A B]. unfold landEffect.
  destruct (component env); split; simpl; auto.
Qed.

Lemma landEffect_settled (st : State) :
  settled env (landEffect env st st).
Proof. intros C. unfold landEffect. rewrite C. reflexivity. Qed.

Lemma landEffect_validity (rendered st : State) :
  checkFormValidity (landEffect env rendered st) = checkFormValidity st.
Proof. unfold landEffect. now destruct (component env). Qed.

Lemma landEffect_same_deps (rendered st : State) :
  same_deps rendered st = true -> settled env (landEffect env rendered st).
Proof.
  intros D C. rewrite landEffect_validity. unfold landEffect. rewrite C. simpl.
  now apply same_deps_validity.
Qed.

Ltac close_core :=
  simpl; auto; try discriminate; try (eapply emoji_rating_ok; eassumption).

(** The handler of a dispatched event keeps the core invariants. *)
Lemma commit_Core (w : World) (e : Event) :
  Core w -> Core (fst (commit env w e)).
Proof.
  intros K. pose proof K as [R L A B].
  unfold commit. destruct (enabled env w e) eqn:En; [|exact K].
  destruct e as [i | field v | field | now | | n o]; simpl handle.
  - destruct (nth_error emojis i) as [item|] eqn:N; [|exact K].
    split; close_core.
  - split; destruct field; close_core.
  - split; close_core.
  - simpl in En. apply submitEnabled_state in En as [Sub Load].
    rewrite Load in L. apply length_zero_iff_nil in L.
    destruct (handleSubmit_cases env now (ui w)) as [[C ->] | (r & Rt & C & ->)].
    + split; close_core. now rewrite L, Load.
    + destruct (submitToWebhook_cases env (feedbackData now r (ui w)))
        as [[U ->] | [U ->]]; simpl; split; close_core;
        rewrite ?L; simpl; auto;
        first [ constructor; [reflexivity | constructor]
              | intros X; rewrite Sub in X; discriminate X ].
  - simpl in En. assert (Sub : isSubmitted (ui w) = true).
    { apply (render_thankYou env). now destruct (render env (ui w)). }
    assert (E : isLoading (handleReset env (ui w)) = isLoading (ui w)).
    { unfold handleReset. destruct (component env); reflexivity. }
    split; cbn [fst ui inflight].
    + unfold handleReset. destruct (component env); reflexivity.
    + rewrite E. exact L.
    + exact A.
    + unfold handleReset. destruct (component env); discriminate.
  - simpl in En. apply Nat.ltb_lt in En.
    destruct (isLoading (ui w)) eqn:Load; [|rewrite L in En; lia].
    destruct (inflight w) as [|p [|q fl]] eqn:F; try discriminate L.
    assert (n = 0%nat) by (simpl in En; lia). subst n. simpl.
    inversion A as [|? ? Ap _]; subst. rewrite Ap. unfold awaiting.
    split; cbn [fst ui inflight].
    + now rewrite resume_rating.
    + reflexivity.
    + constructor.
    + reflexivity.
Qed.

(** With unchanged dependencies the handler leaves a settled state
    settled: only [handleReset] writes [isFormValid], and it writes what
    the effect would. *)
Lemma commit_settled (w : World) (e : Event) :
  Core w -> settled env (ui w) ->
  same_deps (ui w) (ui (fst (commit env w e))) = true ->
  settled env (ui (fst (commit env w e))).
Proof.
  intros [R L A B] S. unfold commit.
  destruct (enabled env w e) eqn:En; [|intros _; exact S].
  destruct e as [i | field v | field | now | | n o]; simpl handle.
  - destruct (nth_error emojis i) as [item|]; simpl; intros D;
      [apply (settled_same_deps env (ui w)); auto | exact S].
  - simpl. intros D. apply (settled_same_deps env (ui w)); auto.
    now destruct field.
  - simpl. intros D. apply (settled_same_deps env (ui w)); auto.
  - destruct (handleSubmit_cases env now (ui w)) as [[C ->] | (r & Rt & C & ->)].
    + simpl. intros D. apply (settled_same_deps env (ui w)); auto.
    + destruct (submitToWebhook_cases env (feedbackData now r (ui w)))
        as [[U ->] | [U ->]]; simpl; intros D;
        apply (settled_same_deps env (ui w)); auto.
  - simpl. intros _. apply reset_settled.
  - simpl in En. apply Nat.ltb_lt in En.
    destruct (isLoading (ui w)) eqn:Load; [|rewrite L in En; lia].
    destruct (inflight w) as [|p [|q fl]] eqn:F; try discriminate L.
    assert (n = 0%nat) by (simpl in En; lia). subst n. simpl.
    inversion A as [|? ? Ap _]; subst. rewrite Ap. unfold awaiting.
    intros D. apply (settled_same_deps env (ui w)); auto.
    now apply resume_deps.
Qed.

Lemma PageInv_mounted : PageInv env (mountedPage env).
Proof.
  split; simpl.
  - apply Core_initial.
  - intros P C. rewrite C in P. discriminate P.
  - now intros ->.
Qed.

Theorem page_step_Inv (p : Page) (pe : PageEvent) :
  PageInv env p -> PageInv env (fst (page_step env p pe)).
Proof.
  intros [K S P].
  destruct pe as [e|]; simpl.
  - destruct (enabled env (shown p) e) eqn:En; [|now split].
    pose proof (commit_Core (shown p) e K) as K'.
    pose proof (commit_settled (shown p) e K) as S'.
    destruct (commit env (shown p) e) as [w' out]. simpl in K', S' |- *.
    split; simpl.
    + destruct (effectPending p); [now apply Core_landEffect|].
      destruct w'. exact K'.
    + destruct (component env) eqn:C; [|intros _ X; congruence].
      intros D. apply negb_false_iff in D.
      destruct (effectPending p) eqn:Pend.
      * now apply landEffect_same_deps.
      * apply S'; auto.
    + now intros ->.
  - destruct (effectPending p) eqn:Pend; [|split; simpl; auto].
    split; simpl.
    + now apply Core_landEffect.
    + intros _. apply landEffect_settled.
    + reflexivity.
Qed.

Theorem page_reachable_Inv (p : Page) : page_reachable env p -> PageInv env p.
Proof.
  induction 1 as [|p pe _ IH].
  - apply PageInv_mounted.
  - now apply page_step_Inv.
Qed.

Lemma page_run_reachable (pes : list PageEvent) :
  forall p, page_reachable env p -> page_reachable env (fst (page_run env p pes)).
Proof.
  induction pes as [|pe r IH]; intros p H; simpl; [exact H|].
  destruct (page_step env p pe) as [p1 out1] eqn:E1.
  specialize (IH p1).
  destruct (page_run env p1 r) as [p2 out2] eqn:E2. simpl in *.
  apply IH. replace p1 with (fst (page_step env p pe)) by now rewrite E1.
  now constructor.
Qed.

(** A transition of [step] is a dispatch followed by the landing of the
    effect: every world the settled machine reaches is on display on a
    page with no effect pending. *)
Lemma step_on_page (w : World) (e : Event) :
  fst (page_step env
         (fst (page_step env {| shown := w; effectPending := false |} (Dispatch e)))
         EffectLands)
  = {| shown := fst (step env w e); effectPending := false |}.
Proof.
  unfold step, page_step, commit, useEffect_validity, landEffect.
  cbn [shown effectPending].
  destruct (enabled env w e); [|reflexivity].
  destruct (handle env w e) as [[st fl] out]. cbn [fst snd ui inflight shown effectPending].
  destruct (component env); cbn [fst snd ui inflight shown effectPending];
    [|reflexivity].
  destruct (same_deps (ui w) st); reflexivity.
Qed.

Lemma reachable_on_page (w : World) :
  reachable env w -> page_reachable env {| shown := w; effectPending := false |}.
Proof.
  induction 1 as [|w e _ IH].
  - destruct (component env) eqn:C.
    + replace {| shown := initialWorld; effectPending := false |}
        with (fst (page_step env (mountedPage env) EffectLands)).
      * constructor. constructor.
      * unfold mountedPage, page_step, landEffect. rewrite C. reflexivity.
    + replace {| shown := initialWorld; effectPending := false |}
        with (mountedPage env); [constructor|].
      unfold mountedPage. now rewrite C.
  - rewrite <- step_on_page. constructor. constructor. exact IH.
Qed.

(** A dispatched click on submit: what the handler does does not depend
    on the effect. *)
Lemma commit_click (w : World) (now : jsstring) :
  commit env w (ClickSubmit now) = step env w (ClickSubmit now).
Proof.
  unfold commit, step.
  destruct (enabled env w (ClickSubmit now)); [|reflexivity].
  simpl handle.
  destruct (handleSubmit_cases env now (ui w)) as [[C ->] | (r & Rt & C & ->)].
  - simpl. rewrite useEffect_same; [now destruct w|]. now apply same_deps_fields.
  - destruct (submitToWebhook_cases env (feedbackData now r (ui w)))
      as [[U ->] | [U ->]]; simpl;
      (rewrite useEffect_same; [reflexivity | now apply same_deps_fields]).
Qed.

End PageMachine.

Section PageClicks.

Variable env : Env.

Lemma page_dispatch_output (p : Page) (e : Event) :
  snd (page_step env p (Dispatch e)) = snd (commit env (shown p) e).
Proof.
  unfold page_step, commit.
  destruct (enabled env (shown p) e); [|reflexivity].
  now destruct (handle env (shown p) e).
Qed.

Lemma page_dispatch_shown (p : Page) (e : Event) :
  enabled env (shown p) e = true ->
  shown (fst (page_step env p (Dispatch e))) =
    {| ui := if effectPending p
             then landEffect env (ui (shown p)) (ui (fst (commit env (shown p) e)))
             else ui (fst (commit env (shown p) e));
       inflight := inflight (fst (commit env (shown p) e)) |}.
Proof.
  intros En. unfold page_step. rewrite En.
  now destruct (commit env (shown p) e).
Qed.

Lemma landEffect_frame (rendered st : State) :
  exists v, landEffect env rendered st = setIsFormValid v st.
Proof.
  unfold landEffect. destruct (component env); [eauto|].
  exists (isFormValid st). now destruct st.
Qed.

(** What a click on submit that fails validation leaves on the page. *)
Lemma commit_rejected (w : World) (now : jsstring) :
  passes (ui w) = false ->
  commit env w (ClickSubmit now) =
    if submitEnabled (render env (ui w))
    then ({| ui := rejectedSubmit (ui w); inflight := inflight w |}, [])
    else (w, []).
Proof.
  intros P. rewrite commit_click. apply click_rejected. now rewrite P.
Qed.

(** A click sends a request only on data that passes validation. *)
Lemma commit_sends (w : World) (now : jsstring) :
  snd (commit env w (ClickSubmit now)) =
    if submitEnabled (render env (ui w)) && passes (ui w)
       && truthy_opt_string (VITE_WEBHOOK_URL env)
    then match selectedRating (ui w) with
         | Some r => [postOf env (feedbackData now r (ui w))]
         | None => []
         end
    else [].
Proof.
  rewrite commit_click, <- WEBHOOK_URL_truthy.
  destruct (click_cases env w now)
    as [[En ->] | [(En & P & ->) | (r & En & P & R & T & [[U ->] | [U ->]])]];
    rewrite En, ?P, ?U, ?R; reflexivity.
Qed.

End PageClicks.

(** C2 (as the code has it). For every form state whose feedback has
    trimmed length below 10, validation produces the feedback error
    ("Feedback is required" at length 0, "Feedback must be at least 10
    characters" at 1 to 9) and fails as a whole, [checkFormValidity] is
    false, and a click on the submit control sends no request: when it
    is dispatched it only marks the fields touched and stores the errors.
    In [SentimentAnalysisForm.tsx] the submit control is not enabled
    whenever [isFormValid] holds what [checkFormValidity] computes for
    the current fields, as it does on every page whose effect has run.
    In the component without [isFormValid] the control is disabled only
    while loading. *)
Theorem short_feedback_blocks_submission :
  forall (env : Env) (w : World),
    (List.length (trim (feedback (ui w))) < 10)%nat ->
    FormErrors.feedback (newErrors (ui w)) =
      Some (if (List.length (trim (feedback (ui w))) =? 0)%nat
            then lit "Feedback is required"
            else lit "Feedback must be at least 10 characters") /\
    fst (validateForm (ui w)) = false /\
    errors (snd (validateForm (ui w))) = newErrors (ui w) /\
    checkFormValidity (ui w) = false /\
    (component env = SentimentAnalysisForm ->
     isFormValid (ui w) = checkFormValidity (ui w) ->
     submitEnabled (render env (ui w)) = false) /\
    (component env = SentimentAnalysisForm ->
     forall p, page_reachable env p -> shown p = w -> effectPending p = false ->
     submitEnabled (render env (ui w)) = false) /\
    (component env = PlainForm ->
     submitEnabled (render env (ui w)) =
       showsSubmitControl (render env (ui w)) && negb (isLoading (ui w))) /\
    (forall now,
       snd (commit env w (ClickSubmit now)) = [] /\
       inflight (fst (commit env w (ClickSubmit now))) = inflight w /\
       isLoading (ui (fst (commit env w (ClickSubmit now)))) = isLoading (ui w) /\
       (submitEnabled (render env (ui w)) = true ->
        ui (fst (commit env w (ClickSubmit now))) = rejectedSubmit (ui w))) /\
    (forall p now,
       shown p = w -> snd (page_step env p (Dispatch (ClickSubmit now))) = []).
Proof.
  intros env w Short.
  pose proof (short_feedback_fails (ui w) Short) as P.
  assert (V : checkFormValidity (ui w) = false).
  { rewrite checkFormValidity_passes, P. apply andb_false_r. }
  assert (D : component env = SentimentAnalysisForm ->
              isFormValid (ui w) = checkFormValidity (ui w) ->
              submitEnabled (render env (ui w)) = false).
  { intros C S. rewrite submitEnabled_spec, C, S, V. apply andb_false_r. }
  assert (K : forall now, snd (commit env w (ClickSubmit now)) = []).
  { intros now. rewrite commit_sends, P.
    now rewrite andb_false_r. }
  split; [|split; [|split; [|split; [|split; [|split; [|split; [|split]]]]]]].
  - rewrite feedback_error_cases.
    destruct (Nat.eqb_spec (List.length (trim (feedback (ui w)))) 0); [reflexivity|].
    destruct (Nat.ltb_spec (List.length (trim (feedback (ui w)))) 10); [reflexivity | lia].
  - now rewrite validateForm_passes.
  - reflexivity.
  - exact V.
  - exact D.
  - intros C p H <- Pend. apply D; [exact C|].
    exact (page_settled _ _ (page_reachable_Inv env p H) Pend C).
  - intros C. rewrite submitEnabled_spec, C. now rewrite andb_true_r.
  - intros now. split; [apply K|].
    rewrite (commit_rejected env w now P).
    destruct (submitEnabled (render env (ui w))); simpl; auto.
    repeat split. discriminate.
  - intros p now <-. rewrite page_dispatch_output. apply K.
Qed.

Lemma short_feedback_blocks_submission_witness :
  submitEnabled
    (render (configured SentimentAnalysisForm)
       (ui (shown (fst (page_step (configured SentimentAnalysisForm)
                          (stalePage SentimentAnalysisForm) EffectLands))))) = false /\
  FormErrors.feedback
    (newErrors (ui (shown (fst (page_step (configured SentimentAnalysisForm)
                                  (stalePage SentimentAnalysisForm) EffectLands))))) =
    Some (lit "Feedback must be at least 10 characters").
Proof.
  assert (Short : (List.length
                     (trim (feedback
                        (ui (shown (fst (page_step (configured SentimentAnalysisForm)
                                           (stalePage SentimentAnalysisForm)
                                           EffectLands)))))) < 10)%nat)
    by (vm_compute; lia).
  pose proof (short_feedback_blocks_submission (configured SentimentAnalysisForm)
                _ Short) as (E & _ & _ & _ & _ & D & _).
  split; [|exact E].
  apply (D eq_refl
           (fst (page_step (configured SentimentAnalysisForm)
                   (stalePage SentimentAnalysisForm) EffectLands))).
  - constructor. constructor. apply page_run_reachable. constructor.
  - reflexivity.
  - reflexivity.
Defined.

(** C2 as stated fails in both components. In the one without
    [isFormValid], with a rating, the feedback "short", a name and a
    valid email, validation reports the feedback error and still the
    submit control is rendered and enabled. In [SentimentAnalysisForm.tsx]
    the same holds on the page committed right after a valid feedback was
    shortened to "short", while the effect that recomputes [isFormValid]
    is still pending; a click there is handled and rejected by
    [handleSubmit]. *)
Lemma short_feedback_submit_enabled :
  (reachable (configured PlainForm) (tooShort PlainForm) /\
   (List.length (trim (feedback (ui (tooShort PlainForm)))) < 10)%nat /\
   FormErrors.feedback (newErrors (ui (tooShort PlainForm))) =
     Some (lit "Feedback must be at least 10 characters") /\
   FormErrors.name (newErrors (ui (tooShort PlainForm))) = None /\
   FormErrors.email (newErrors (ui (tooShort PlainForm))) = None /\
   showsSubmitControl (render (configured PlainForm) (ui (tooShort PlainForm))) = true /\
   submitEnabled (render (configured PlainForm) (ui (tooShort PlainForm))) = true) /\
  (page_reachable (configured SentimentAnalysisForm) (stalePage SentimentAnalysisForm) /\
   effectPending (stalePage SentimentAnalysisForm) = true /\
   feedback (ui (shown (stalePage SentimentAnalysisForm))) = lit "short" /\
   FormErrors.feedback (newErrors (ui (shown (stalePage SentimentAnalysisForm)))) =
     Some (lit "Feedback must be at least 10 characters") /\
   FormErrors.name (newErrors (ui (shown (stalePage SentimentAnalysisForm)))) = None /\
   FormErrors.email (newErrors (ui (shown (stalePage SentimentAnalysisForm)))) = None /\
   isFormValid (ui (shown (stalePage SentimentAnalysisForm))) = true /\
   submitEnabled (render (configured SentimentAnalysisForm)
                    (ui (shown (stalePage SentimentAnalysisForm)))) = true /\
   touched (ui (shown (fst (page_step (configured SentimentAnalysisForm)
                              (stalePage SentimentAnalysisForm)
                              (Dispatch (ClickSubmit noon)))))) = Touched.all /\
   snd (page_step (configured SentimentAnalysisForm)
          (stalePage SentimentAnalysisForm) (Dispatch (ClickSubmit noon))) = []).
Proof.
  split.
  - split; [apply run_from_mount|].
    split; [vm_compute; lia|].
    repeat split; vm_compute; reflexivity.
  - split; [constructor; apply page_run_reachable; constructor|].
    repeat split; vm_compute; reflexivity.
Qed.

(** X7. The validation inside [handleSubmit] is what keeps invalid data
    from the webhook. On every page, whatever effect is pending, a click
    on submit sends at most one request, and sends one only when the
    control is enabled and [validateForm] passes. In
    [SentimentAnalysisForm.tsx], on a page whose effect has run, an
    enabled control implies that the data passes, so a dispatched click
    sends exactly one request when a URL is configured and stores no
    error. On the page committed before the effect has run the control
    can be enabled on data that fails validation: the click is handled
    there and rejected, nothing being sent. *)
Theorem click_sends_only_valid_data :
  (forall (env : Env) (p : Page) (now : jsstring),
     (List.length (snd (page_step env p (Dispatch (ClickSubmit now)))) <= 1)%nat /\
     (snd (page_step env p (Dispatch (ClickSubmit now))) <> [] ->
      submitEnabled (render env (ui (shown p))) = true /\
      fst (validateForm (ui (shown p))) = true)) /\
  (forall (env : Env) (p : Page),
     page_reachable env p ->
     component env = SentimentAnalysisForm ->
     effectPending p = false ->
     submitEnabled (render env (ui (shown p))) = true ->
     fst (validateForm (ui (shown p))) = true /\
     newErrors (ui (shown p)) = FormErrors.empty /\
     forall now,
       List.length (snd (page_step env p (Dispatch (ClickSubmit now)))) =
         (if truthy_opt_string (VITE_WEBHOOK_URL env) then 1%nat else 0%nat) /\
       errors (ui (shown (fst (page_step env p (Dispatch (ClickSubmit now))))))
         = FormErrors.empty) /\
  (page_reachable (configured SentimentAnalysisForm) (stalePage SentimentAnalysisForm) /\
   effectPending (stalePage SentimentAnalysisForm) = true /\
   submitEnabled (render (configured SentimentAnalysisForm)
                    (ui (shown (stalePage SentimentAnalysisForm)))) = true /\
   fst (validateForm (ui (shown (stalePage SentimentAnalysisForm)))) = false /\
   snd (page_step (configured SentimentAnalysisForm) (stalePage SentimentAnalysisForm)
          (Dispatch (ClickSubmit noon))) = [] /\
   errors (ui (shown (fst (page_step (configured SentimentAnalysisForm)
                             (stalePage SentimentAnalysisForm)
                             (Dispatch (ClickSubmit noon))))))
     = newErrors (ui (shown (stalePage SentimentAnalysisForm)))).
Proof.
  split; [|split].
  - intros env p now. rewrite page_dispatch_output, commit_sends, validateForm_passes.
    destruct (submitEnabled (render env (ui (shown p)))); simpl;
      [|split; [lia | congruence]].
    destruct (passes (ui (shown p))); simpl; [|split; [lia | congruence]].
    destruct (truthy_opt_string (VITE_WEBHOOK_URL env)); simpl;
      [|split; [lia | congruence]].
    destruct (selectedRating (ui (shown p))); simpl; split; auto; lia.
  - intros env p H C Pend En.
    pose proof (page_reachable_Inv env p H) as [K S _].
    assert (P : passes (ui (shown p)) = true).
    { pose proof En as En'.
      rewrite submitEnabled_spec, C, (S Pend C) in En'.
      rewrite checkFormValidity_passes, !andb_true_iff in En'. tauto. }
    assert (V : fst (validateForm (ui (shown p))) = true)
      by now rewrite validateForm_passes.
    assert (E : newErrors (ui (shown p)) = FormErrors.empty).
    { unfold validateForm in V. simpl fst in V.
      apply keys_length_zero in V as (A & B & D).
      destruct (newErrors (ui (shown p))); simpl in *; now subst. }
    split; [exact V|]. split; [exact E|].
    intros now.
    assert (Enb : enabled env (shown p) (ClickSubmit now) = true) by exact En.
    rewrite page_dispatch_output, (page_dispatch_shown env p _ Enb), Pend.
    cbn [ui]. rewrite commit_click, <- WEBHOOK_URL_truthy.
    destruct (click_cases env (shown p) now)
      as [[X _] | [(_ & X & _) | (r & _ & _ & _ & _ & [[U ->] | [U ->]])]];
      try congruence; rewrite U; simpl; rewrite E; split; reflexivity.
  - split; [constructor; apply page_run_reachable; constructor|].
    repeat split; vm_compute; reflexivity.
Qed.

(** X14. On the rendered form at most one helper paragraph is shown,
    and it names the first missing step: the rating when the feedback
    area is hidden, else the feedback when the contact fields are hidden,
    else the contact information when the submit control is not rendered.
    With the control rendered, [SentimentAnalysisForm.tsx] asks to fix
    the validation errors exactly when [isFormValid] is false, which on a
    page whose effect has run is exactly when validation fails; the
    other component shows nothing then. *)
Theorem helper_text_names_missing_step :
  forall (env : Env),
    (forall st,
       isSubmitted st = false ->
       helperTexts env st =
         if negb (showsFeedbackArea (render env st)) then [SelectRating]
         else if negb (showsContactFields (render env st)) then [ProvideFeedback]
         else if negb (showsSubmitControl (render env st)) then [FillContact]
         else match component env with
              | SentimentAnalysisForm =>
                  if isFormValid st then [] else [FixErrors]
              | PlainForm => []
              end) /\
    (forall st, (List.length (helperTexts env st) <= 1)%nat) /\
    (forall st,
       In FixErrors (helperTexts env st) <->
       component env = SentimentAnalysisForm /\
       showsSubmitControl (render env st) = true /\
       isFormValid st = false) /\
    (forall p,
       page_reachable env p -> effectPending p = false ->
       (In FixErrors (helperTexts env (ui (shown p))) <->
        component env = SentimentAnalysisForm /\
        showsSubmitControl (render env (ui (shown p))) = true /\
        fst (validateForm (ui (shown p))) = false)).
Proof.
  intros env.
  assert (E : forall st, isSubmitted st = false ->
     helperTexts env st =
       if negb (showsFeedbackArea (render env st)) then [SelectRating]
       else if negb (showsContactFields (render env st)) then [ProvideFeedback]
       else if negb (showsSubmitControl (render env st)) then [FillContact]
       else match component env with
            | SentimentAnalysisForm =>
                if isFormValid st then [] else [FixErrors]
            | PlainForm => []
            end).
  { intros st Sub.
    rewrite showsFeedbackArea_spec, showsContactFields_spec,
      showsSubmitControl_spec.
    unfold helperTexts. rewrite Sub. simpl negb.
    destruct (truthy_number (selectedRating st));
      destruct (truthy_string (trim (feedback st)));
      destruct (truthy_string (trim (name st)));
      destruct (truthy_string (trim (email st)));
      destruct (component env); simpl; try reflexivity;
      destruct (isFormValid st); reflexivity. }
  assert (F : forall st,
     In FixErrors (helperTexts env st) <->
     component env = SentimentAnalysisForm /\
     showsSubmitControl (render env st) = true /\
     isFormValid st = false).
  { intros st. destruct (isSubmitted st) eqn:Sub.
    - unfold helperTexts. rewrite Sub, showsSubmitControl_spec, Sub. simpl.
      split; [tauto | intros (_ & X & _); discriminate X].
    - rewrite (E st Sub).
      pose proof (showsSubmitControl_spec env st) as SC.
      pose proof (showsContactFields_spec env st) as CF.
      pose proof (showsFeedbackArea_spec env st) as FA.
      rewrite Sub in SC, CF, FA. simpl in SC, CF, FA.
      destruct (truthy_number (selectedRating st));
        destruct (truthy_string (trim (feedback st)));
        destruct (truthy_string (trim (name st)));
        destruct (truthy_string (trim (email st)));
        simpl in SC, CF, FA; rewrite SC, CF, FA; simpl;
        destruct (component env); try destruct (isFormValid st);
        simpl; intuition discriminate. }
  split; [exact E|]. split; [|split; [exact F|]].
  - intros st. destruct (isSubmitted st) eqn:Sub.
    + unfold helperTexts. rewrite Sub. simpl. lia.
    + rewrite (E st Sub).
      repeat match goal with
             | |- context [if ?b then _ else _] => destruct b
             end; destruct (component env); simpl; lia.
  - intros p H Pend. rewrite F, validateForm_passes.
    pose proof (page_reachable_Inv env p H) as [_ S _].
    split; intros (C & Shown & X); (split; [exact C|]); (split; [exact Shown|]).
    + rewrite (S Pend C), checkFormValidity_passes in X.
      rewrite showsSubmitControl_spec, !andb_true_iff in Shown.
      destruct Shown as [[[[_ T] _] _] _]. now rewrite T in X.
    + rewrite (S Pend C), checkFormValidity_passes, X. apply andb_false_r.
Qed.

(** X16. The submit control of [SentimentAnalysisForm.tsx] is enabled
    exactly when the form is not submitted, not loading, has a rating and
    three non-empty texts, and [isFormValid] is true. The effect writes
    [checkFormValidity] of the fields into [isFormValid], and on every
    reachable page whose effect has run the two agree, so that there the
    control is enabled exactly when the form is not submitted, not
    loading, has a rating and passes validation. In the other component
    the control is enabled exactly when the form is not submitted, not
    loading, has a rating and its three texts are non-empty after
    trimming. *)
Theorem submit_enabled_iff_idle_and_complete :
  forall (env : Env) (p : Page),
    page_reachable env p ->
    (component env = SentimentAnalysisForm ->
     (submitEnabled (render env (ui (shown p))) = true <->
      isSubmitted (ui (shown p)) = false /\ isLoading (ui (shown p)) = false /\
      isSet (selectedRating (ui (shown p))) = true /\
      trim (feedback (ui (shown p))) <> [] /\ trim (name (ui (shown p))) <> [] /\
      trim (email (ui (shown p))) <> [] /\
      isFormValid (ui (shown p)) = true) /\
     isFormValid (ui (shown (fst (page_step env p EffectLands)))) =
       checkFormValidity (ui (shown (fst (page_step env p EffectLands)))) /\
     (effectPending p = false ->
      isFormValid (ui (shown p)) = checkFormValidity (ui (shown p)) /\
      (submitEnabled (render env (ui (shown p))) = true <->
       isSubmitted (ui (shown p)) = false /\ isLoading (ui (shown p)) = false /\
       isSet (selectedRating (ui (shown p))) = true /\
       fst (validateForm (ui (shown p))) = true))) /\
    (component env = PlainForm ->
     (submitEnabled (render env (ui (shown p))) = true <->
      isSubmitted (ui (shown p)) = false /\ isLoading (ui (shown p)) = false /\
      isSet (selectedRating (ui (shown p))) = true /\
      trim (feedback (ui (shown p))) <> [] /\ trim (name (ui (shown p))) <> [] /\
      trim (email (ui (shown p))) <> [])).
Proof.
  intros env p H.
  pose proof (page_reachable_Inv env p H) as I.
  pose proof (page_reachable_Inv env _ (page_next env p EffectLands H)) as I'.
  destruct I as [K S Pl].
  pose proof (rating_ok_truthy _ (core_rating _ K)) as T.
  split; intros C.
  - split; [|split].
    + rewrite submitEnabled_spec, showsSubmitControl_spec, C, T.
      rewrite !andb_true_iff, !negb_true_iff, !truthy_string_true. tauto.
    + apply (page_settled _ _ I'); [|exact C].
      unfold page_step. destruct (effectPending p) eqn:Pend; simpl; auto.
    + intros Pend. split; [exact (S Pend C)|].
      rewrite submitEnabled_spec, showsSubmitControl_spec, C, (S Pend C),
        checkFormValidity_passes, validateForm_passes, T.
      rewrite !andb_true_iff, !negb_true_iff. split.
      * tauto.
      * intros (Sub & Load & R & P).
        destruct (passes_present _ P) as (F & N & M). tauto.
  - rewrite submitEnabled_spec, showsSubmitControl_spec, C, T.
    rewrite !andb_true_iff, !negb_true_iff, !truthy_string_true. tauto.
Qed.

Lemma submit_enabled_iff_idle_and_complete_witness :
  isFormValid (ui (shown (readyPage SentimentAnalysisForm))) = true /\
  isFormValid (ui (shown (fst (page_step (configured SentimentAnalysisForm)
                                 (stalePage SentimentAnalysisForm) EffectLands)))) = false.
Proof.
  split.
  - destruct (proj1 (submit_enabled_iff_idle_and_complete
                       (configured SentimentAnalysisForm)
                       (readyPage SentimentAnalysisForm)
                       (page_run_reachable _ _ _ (page_mount _))) eq_refl)
      as (_ & _ & S).
    rewrite (proj1 (S eq_refl)). vm_compute. reflexivity.
  - destruct (proj1 (submit_enabled_iff_idle_and_complete
                       (configured SentimentAnalysisForm)
                       (stalePage SentimentAnalysisForm)
                       (page_next _ _ _ (page_run_reachable _ _ _ (page_mount _))))
                eq_refl)
      as (_ & S & _).
    rewrite S. vm_compute. reflexivity.
Defined.
